(** * Cadence meter: step detection, sliding-window rate, state bands

    A shallow embedding of [src/main.js].  The file holds two revisions of
    the same page script, one after the other:

    - lines 1-190, the revision with a prominence test in the peak detector
      and a span-based rate ([SpanBased] below);
    - lines 191-350, the revision with a plain threshold detector and a
      density-based rate ([DensityBased] below).

    How JavaScript values are represented:

    - [Date.now()] is an input of every callback; timestamps are integer
      milliseconds, kept in [Z] (doubles are exact on them);
    - sensor readings, the gravity estimate and the filtered magnitudes are
      binary64 numbers ([PrimFloat.float]), with IEEE comparisons and
      [Math.sqrt];
    - the cadence (events per minute) is a quotient of integers and is kept
      as an exact rational in [Q]; equalities on it are stated with [==].
      The script computes it with two rounded binary64 operations, so its
      number can differ from the exact one in the last place (eight steps
      600 ms apart: exactly 100, on doubles 99.999999999999986; 41 retained
      events: exactly 492, on doubles 491.99999999999994).  [Binary64]
      holds the script's own expressions on doubles; the worked rates are
      evaluated there as well, and the last section states on doubles what
      the windows of a run under a non-decreasing clock can give;
    - [/] on a zero divisor gives [Infinity] or [NaN] in JavaScript; here it
      is a fault, [DivisionByZero], so that "no division by zero happens"
      is a property of the result;
    - module-level [let] variables and the DOM nodes written by [updateUI]
      are the fields of a [State] record threaded through the callbacks. *)

From Stdlib Require Import ZArith QArith Qround List String Bool Lia Lqa Floats.
Import ListNotations.

Set Warnings "-inexact-float".

Open Scope Z_scope.

(** ** Faults *)

Inductive Outcome (A : Type) : Type :=
| Ok (a : A)
| DivisionByZero.
Arguments Ok {A} a.
Arguments DivisionByZero {A}.

Definition bind {A B : Type} (c : Outcome A) (k : A -> Outcome B) : Outcome B :=
  match c with
  | Ok a => k a
  | DivisionByZero => DivisionByZero
  end.

Notation "x <- c ;; k" := (bind c (fun x => k))
  (at level 61, c at next level, right associativity).

(** [a / b] on rates. *)
Definition divide (a b : Q) : Outcome Q :=
  if Qeq_bool b 0 then DivisionByZero else Ok (a / b)%Q.

(** [a < b] on rates, as a boolean. *)
Definition Qlt_bool (a b : Q) : bool :=
  (Qnum a * QDen b <? Qnum b * QDen a)%Z.

(** ** Values shared by both revisions *)

(** The object literal [{ label: ..., color: ... }]. *)
Record St : Type := mkSt { label : string; color : string }.

(** [cadenceEl.textContent]: ['--'] or the rounded cadence. *)
Inductive CadenceText : Type :=
| Dashes
| Rounded (n : Z).

(** [Math.round]: the nearest integer, halves up. *)
Definition Math_round (c : Q) : Z := Qfloor (c + (1 # 2)).

(** [accelerationIncludingGravity]: three nullable doubles. *)
Record Acceleration : Type := mkAcc
  { x : option float; y : option float; z : option float }.

(** The part of a [devicemotion] event the handler reads; [None] is a
    null or undefined [accelerationIncludingGravity]. *)
Record DeviceMotionEvent : Type := mkEv
  { accelerationIncludingGravity : option Acceleration }.

(** A null operand of [*] or [-] is converted to [+0]. *)
Definition ToNumber (v : option float) : float :=
  match v with
  | Some f => f
  | None => 0%float
  end.

Record Vec3 : Type := mkVec3 { gx : float; gy : float; gz : float }.

(** The callbacks the page registers, each with the clock reading it sees. *)
Inductive Callback : Type :=
| Motion (ev : DeviceMotionEvent) (now : Z)
| SimulateStep (now : Z)
| ResetClick
| Tick (now : Z).

(** The time a callback reads from the clock, if it reads it. *)
Definition clock_of (c : Callback) : option Z :=
  match c with
  | Motion _ now | SimulateStep now | Tick now => Some now
  | ResetClick => None
  end.

(** ** The band rule in the words of the specification

    An ordered list of upper bounds with their labels and a final label:
    the label of the first bound above the rate, else the final one. *)
Fixpoint first_band (bands : list (Q * St)) (final : St) (r : Q) : St :=
  match bands with
  | [] => final
  | (b, l) :: rest => if Qlt_bool r b then l else first_band rest final r
  end.

(** The half-open intervals the bounds cut out of [[0, +oo)]: each band has
    a lower bound, an upper bound ([None] for the last one) and a label. *)
Fixpoint intervals (lo : Q) (bands : list (Q * St)) (final : St)
  : list (Q * option Q * St) :=
  match bands with
  | [] => [(lo, None, final)]
  | (b, l) :: rest => (lo, Some b, l) :: intervals b rest final
  end.

Definition in_interval (r : Q) (i : Q * option Q * St) : Prop :=
  match i with
  | (lo, Some hi, _) => (lo <= r /\ r < hi)%Q
  | (lo, None, _) => (lo <= r)%Q
  end.

Fixpoint ascending (bs : list Q) : Prop :=
  match bs with
  | b1 :: ((b2 :: _) as rest) => (b1 < b2)%Q /\ ascending rest
  | _ => True
  end.

(** ** Properties of the event window *)

(** Neighbouring timestamps at least [gap] apart, in increasing order. *)
Fixpoint spaced (gap : Z) (l : list Z) : Prop :=
  match l with
  | a :: ((b :: _) as rest) => a + gap <= b /\ spaced gap rest
  | _ => True
  end.

Definition non_decreasing (l : list Z) : Prop :=
  forall i j, (i <= j < List.length l)%nat -> nth i l 0 <= nth j l 0.

Definition no_two_closer_than (gap : Z) (l : list Z) : Prop :=
  forall i j, (i < j < List.length l)%nat -> gap <= nth j l 0 - nth i l 0.

(** What [onStep] and the pruning keep true of the window and of
    [lastStepTs]: the entries are spaced, and none is later than the last
    accepted one. *)
Definition window_ok (gap last : Z) (l : list Z) : Prop :=
  spaced gap l /\ Forall (fun t => t <= last) l.

(** The clock readings of a run, in the order the callbacks took them. *)
Definition readings (trace : list Callback) : list Z :=
  flat_map
    (fun c => match clock_of c with Some t => [t] | None => [] end) trace.

(** Each reading is at least the one before it. *)
Definition monotonic_clock (trace : list Callback) : Prop :=
  spaced 0 (readings trace).



(** ** Lines 1-190: prominence detector, span-based rate *)

Module SpanBased.

Definition THRESHOLD_SONG1_END : Q := 20.
Definition THRESHOLD_TRANS1_END : Q := 40.
Definition THRESHOLD_SONG2_END : Q := 100.
Definition THRESHOLD_TRANS2_END : Q := 120.

Definition MIN_STEP_INTERVAL : Z := 300.
Definition PEAK_THRESHOLD : float := 1.2%float.
Definition MIN_PEAK_PROMINENCE : float := 0.5%float.
Definition windowSeconds : Z := 5.
Definition alpha : float := 0.8%float.
Definition historyLength : nat := 60.

Record State : Type := mkState
  { lastStepTs : Z;
    stepTimestamps : list Z;
    gravity : Vec3;
    cadenceHistory : list (option Q);
    chartData : list (option Q);
    lastFiltered : float;
    lastPeakTime : Z;
    prevFiltered : float;
    cadenceEl : CadenceText;
    stateEl : St }.

Definition song1 : St := mkSt "曲①" "#6c757d".
Definition trans1 : St := mkSt "遷移①" "#007bff".
Definition song2 : St := mkSt "曲②" "#5cb85c".
Definition trans2 : St := mkSt "遷移②" "#ffc107".
Definition song3 : St := mkSt "曲③" "#d9534f".
Definition initializing : St := mkSt "初期化中" "#888".

Definition classify (cadence : Q) : St :=
  if Qlt_bool cadence THRESHOLD_SONG1_END then song1
  else if Qlt_bool cadence THRESHOLD_TRANS1_END then trans1
  else if Qlt_bool cadence THRESHOLD_SONG2_END then song2
  else if Qlt_bool cadence THRESHOLD_TRANS2_END then trans2
  else song3.

(** [cadence] is [None] for [null]. *)
Definition updateUI (cadence : option Q) (s : State) : State :=
  let text := match cadence with
              | None => Dashes
              | Some c => Rounded (Math_round c)
              end in
  let st := match cadence with
            | None => initializing
            | Some c => classify c
            end in
  mkState (lastStepTs s) (stepTimestamps s) (gravity s) (cadenceHistory s)
    (chartData s) (lastFiltered s) (lastPeakTime s) (prevFiltered s) text st.

(** The window after [filter]; [first] and [last] are read only when
    [count >= 2], where both indices exist. *)
Definition computeCadence (now : Z) (s : State) : Outcome (State * Q) :=
  let windowStart := now - windowSeconds * 1000 in
  let kept := filter (fun ts => windowStart <=? ts) (stepTimestamps s) in
  let s := mkState (lastStepTs s) kept (gravity s) (cadenceHistory s)
             (chartData s) (lastFiltered s) (lastPeakTime s) (prevFiltered s)
             (cadenceEl s) (stateEl s) in
  let count := List.length kept in
  if (count =? 0)%nat then Ok (s, 0%Q)
  else if (2 <=? count)%nat then
    let first := nth 0 kept 0 in
    let last := nth (List.length kept - 1) kept 0 in
    durationMinutes <- divide (inject_Z (last - first)) 60000 ;;
    if Qle_bool durationMinutes 0 then Ok (s, 0%Q)
    else
      cadence <- divide (inject_Z (Z.of_nat count - 1)) durationMinutes ;;
      Ok (s, cadence)
  else
    perSecond <- divide (inject_Z (Z.of_nat count)) (inject_Z windowSeconds) ;;
    Ok (s, (perSecond * 60)%Q).

(** [push], then [shift] when the array grew past [historyLength]; the
    chart's data is the same array. *)
Definition pushHistory (cadence : Q) (s : State) : State :=
  let pushed := cadenceHistory s ++ [Some cadence] in
  let h := if (historyLength <? List.length pushed)%nat then tl pushed
           else pushed in
  mkState (lastStepTs s) (stepTimestamps s) (gravity s) h h
    (lastFiltered s) (lastPeakTime s) (prevFiltered s) (cadenceEl s)
    (stateEl s).

Definition onStep (ts : Z) (s : State) : State :=
  if ts - lastStepTs s <? MIN_STEP_INTERVAL then s
  else
    mkState ts (stepTimestamps s ++ [ts]) (gravity s) (cadenceHistory s)
      (chartData s) (lastFiltered s) (lastPeakTime s) (prevFiltered s)
      (cadenceEl s) (stateEl s).

Definition handleMotion (ev : DeviceMotionEvent) (now : Z) (s : State)
  : State :=
  match accelerationIncludingGravity ev with
  | None => s
  | Some a =>
    let g := gravity s in
    let g' := mkVec3
      (alpha * gx g + (1 - alpha) * ToNumber (x a))
      (alpha * gy g + (1 - alpha) * ToNumber (y a))
      (alpha * gz g + (1 - alpha) * ToNumber (z a)) in
    let ax := (ToNumber (x a) - gx g')%float in
    let ay := (ToNumber (y a) - gy g')%float in
    let az := (ToNumber (z a) - gz g')%float in
    let mag := PrimFloat.sqrt (ax * ax + ay * ay + az * az) in
    let s := mkState (lastStepTs s) (stepTimestamps s) g' (cadenceHistory s)
               (chartData s) (lastFiltered s) (lastPeakTime s)
               (prevFiltered s) (cadenceEl s) (stateEl s) in
    let s :=
      if (prevFiltered s <? lastFiltered s)%float
         && (PEAK_THRESHOLD <? lastFiltered s)%float
         && (MIN_PEAK_PROMINENCE <? lastFiltered s - prevFiltered s)%float
         && (mag <=? lastFiltered s)%float
         && (MIN_STEP_INTERVAL <? now - lastPeakTime s)
      then
        onStep now
          (mkState (lastStepTs s) (stepTimestamps s) (gravity s)
             (cadenceHistory s) (chartData s) (lastFiltered s) now
             (prevFiltered s) (cadenceEl s) (stateEl s))
      else s in
    mkState (lastStepTs s) (stepTimestamps s) (gravity s) (cadenceHistory s)
      (chartData s) mag (lastPeakTime s) (lastFiltered s) (cadenceEl s)
      (stateEl s)
  end.

Definition simulateStep (now : Z) (s : State) : State := onStep now s.

Definition resetAll (s : State) : State :=
  let cleared := repeat (@None Q) historyLength in
  updateUI None
    (mkState (lastStepTs s) [] (gravity s) cleared cleared (lastFiltered s)
       (lastPeakTime s) (prevFiltered s) (cadenceEl s) (stateEl s)).

(** The body of the [setInterval] callback. *)
Definition tick (now : Z) (s : State) : Outcome State :=
  r <- computeCadence now s ;;
  let '(s, cadence) := r in
  Ok (pushHistory cadence (updateUI (Some cadence) s)).

(** The script's top level: the module variables, then [updateUI(null)]. *)
Definition init : State :=
  let empty := repeat (@None Q) historyLength in
  updateUI None
    (mkState 0 [] (mkVec3 0 0 0) empty empty 0%float 0 0%float Dashes
       initializing).

Definition step (c : Callback) (s : State) : Outcome State :=
  match c with
  | Motion ev now => Ok (handleMotion ev now s)
  | SimulateStep now => Ok (simulateStep now s)
  | ResetClick => Ok (resetAll s)
  | Tick now => tick now s
  end.

Fixpoint run (trace : list Callback) (s : State) : Outcome State :=
  match trace with
  | [] => Ok s
  | c :: rest => s' <- step c s ;; run rest s'
  end.

(** The window is spaced by the refractory interval and [lastStepTs] is at
    least every entry. *)
Definition window_invariant (s : State) : Prop :=
  window_ok MIN_STEP_INTERVAL (lastStepTs s) (stepTimestamps s).

(** The chart's labels, [Array.from({ length: historyLength }, (_, i) =>
    i - historyLength + 1)]. *)
Definition times : list Z :=
  map (fun i => Z.of_nat i - Z.of_nat historyLength + 1)
    (seq 0 historyLength).

End SpanBased.

(** ** Lines 191-350: threshold detector, density-based rate *)

Module DensityBased.

Definition THRESHOLD_STATIONARY : Q := 20.
Definition THRESHOLD_FAST : Q := 110.

Definition MIN_STEP_INTERVAL : Z := 250.
Definition PEAK_THRESHOLD : float := 1.0%float.
Definition windowSeconds : Z := 5.
Definition alpha : float := 0.8%float.
Definition historyLength : nat := 60.

Record State : Type := mkState
  { lastStepTs : Z;
    stepTimestamps : list Z;
    gravity : Vec3;
    cadenceHistory : list (option Q);
    chartData : list (option Q);
    lastFiltered : float;
    lastPeakTime : Z;
    cadenceEl : CadenceText;
    stateEl : St }.

Definition stationary : St := mkSt "静止" "#666".
Definition fast : St := mkSt "早歩き" "#d9534f".
Definition walking : St := mkSt "歩行" "#5cb85c".
Definition initializing : St := mkSt "初期化中" "#888".

Definition classify (cadence : Q) : St :=
  if Qlt_bool cadence THRESHOLD_STATIONARY then stationary
  else if Qle_bool THRESHOLD_FAST cadence then fast
  else walking.

Definition updateUI (cadence : option Q) (s : State) : State :=
  let text := match cadence with
              | None => Dashes
              | Some c => Rounded (Math_round c)
              end in
  let st := match cadence with
            | None => initializing
            | Some c => classify c
            end in
  mkState (lastStepTs s) (stepTimestamps s) (gravity s) (cadenceHistory s)
    (chartData s) (lastFiltered s) (lastPeakTime s) text st.

Definition computeCadence (now : Z) (s : State) : Outcome (State * Q) :=
  let windowStart := now - windowSeconds * 1000 in
  let kept := filter (fun ts => windowStart <=? ts) (stepTimestamps s) in
  let s := mkState (lastStepTs s) kept (gravity s) (cadenceHistory s)
             (chartData s) (lastFiltered s) (lastPeakTime s) (cadenceEl s)
             (stateEl s) in
  let count := List.length kept in
  if (count =? 0)%nat then Ok (s, 0%Q)
  else
    perSecond <- divide (inject_Z (Z.of_nat count)) (inject_Z windowSeconds) ;;
    Ok (s, (perSecond * 60)%Q).

Definition pushHistory (cadence : Q) (s : State) : State :=
  let pushed := cadenceHistory s ++ [Some cadence] in
  let h := if (historyLength <? List.length pushed)%nat then tl pushed
           else pushed in
  mkState (lastStepTs s) (stepTimestamps s) (gravity s) h h
    (lastFiltered s) (lastPeakTime s) (cadenceEl s) (stateEl s).

Definition onStep (ts : Z) (s : State) : State :=
  if ts - lastStepTs s <? MIN_STEP_INTERVAL then s
  else
    mkState ts (stepTimestamps s ++ [ts]) (gravity s) (cadenceHistory s)
      (chartData s) (lastFiltered s) (lastPeakTime s) (cadenceEl s)
      (stateEl s).

Definition handleMotion (ev : DeviceMotionEvent) (now : Z) (s : State)
  : State :=
  match accelerationIncludingGravity ev with
  | None => s
  | Some a =>
    let g := gravity s in
    let g' := mkVec3
      (alpha * gx g + (1 - alpha) * ToNumber (x a))
      (alpha * gy g + (1 - alpha) * ToNumber (y a))
      (alpha * gz g + (1 - alpha) * ToNumber (z a)) in
    let ax := (ToNumber (x a) - gx g')%float in
    let ay := (ToNumber (y a) - gy g')%float in
    let az := (ToNumber (z a) - gz g')%float in
    let mag := PrimFloat.sqrt (ax * ax + ay * ay + az * az) in
    let s := mkState (lastStepTs s) (stepTimestamps s) g' (cadenceHistory s)
               (chartData s) (lastFiltered s) (lastPeakTime s) (cadenceEl s)
               (stateEl s) in
    let s :=
      if (PEAK_THRESHOLD <? lastFiltered s)%float
         && (mag <=? lastFiltered s)%float
         && (MIN_STEP_INTERVAL <? now - lastPeakTime s)
      then
        onStep now
          (mkState (lastStepTs s) (stepTimestamps s) (gravity s)
             (cadenceHistory s) (chartData s) (lastFiltered s) now
             (cadenceEl s) (stateEl s))
      else s in
    mkState (lastStepTs s) (stepTimestamps s) (gravity s) (cadenceHistory s)
      (chartData s) mag (lastPeakTime s) (cadenceEl s) (stateEl s)
  end.

Definition simulateStep (now : Z) (s : State) : State := onStep now s.

Definition resetAll (s : State) : State :=
  let cleared := repeat (@None Q) historyLength in
  updateUI None
    (mkState (lastStepTs s) [] (gravity s) cleared cleared (lastFiltered s)
       (lastPeakTime s) (cadenceEl s) (stateEl s)).

Definition tick (now : Z) (s : State) : Outcome State :=
  r <- computeCadence now s ;;
  let '(s, cadence) := r in
  Ok (pushHistory cadence (updateUI (Some cadence) s)).

Definition init : State :=
  let empty := repeat (@None Q) historyLength in
  updateUI None
    (mkState 0 [] (mkVec3 0 0 0) empty empty 0%float 0 Dashes initializing).

Definition step (c : Callback) (s : State) : Outcome State :=
  match c with
  | Motion ev now => Ok (handleMotion ev now s)
  | SimulateStep now => Ok (simulateStep now s)
  | ResetClick => Ok (resetAll s)
  | Tick now => tick now s
  end.

Fixpoint run (trace : list Callback) (s : State) : Outcome State :=
  match trace with
  | [] => Ok s
  | c :: rest => s' <- step c s ;; run rest s'
  end.

(** The window is spaced by the refractory interval and [lastStepTs] is at
    least every entry. *)
Definition window_invariant (s : State) : Prop :=
  window_ok MIN_STEP_INTERVAL (lastStepTs s) (stepTimestamps s).

(** The chart's labels, [Array.from({ length: historyLength }, (_, i) =>
    i - historyLength + 1)]. *)
Definition times : list Z :=
  map (fun i => Z.of_nat i - Z.of_nat historyLength + 1)
    (seq 0 historyLength).

End DensityBased.

(** ** The bands of each revision, as the specification lists them *)

Definition span_bands : list (Q * St) :=
  [ (20%Q, SpanBased.song1); (40%Q, SpanBased.trans1);
    (100%Q, SpanBased.song2); (120%Q, SpanBased.trans2) ].

Definition density_bands : list (Q * St) :=
  [ (20%Q, DensityBased.stationary); (110%Q, DensityBased.walking) ].

(** ** Binary64 evaluation of the two rate formulas

    The same expressions as in [computeCadence], on doubles, to compare the
    exact rational results with the numbers the script computes. *)
Module Binary64.

(** [(count / windowSeconds) * 60]. *)
Definition density (count windowSeconds : float) : float :=
  (count / windowSeconds * 60)%float.

(** [(count - 1) / ((last - first) / 60000)]. *)
Definition span (count first last : float) : float :=
  ((count - 1) / ((last - first) / 60000))%float.

(** The double that holds an integer (exact below 2^53 in size). *)
Definition of_Z (n : Z) : float :=
  if n <? 0 then PrimFloat.opp (PrimFloat.of_uint63 (Uint63.of_Z (- n)))
  else PrimFloat.of_uint63 (Uint63.of_Z n).

(** What the density-based [computeCadence] returns, on doubles, when
    [count] events are retained. *)
Definition density_rate (count : nat) : float :=
  if (count =? 0)%nat then 0%float
  else density (of_Z (Z.of_nat count)) 5.

(** The span-based formula with its guard, on doubles, from the count and
    the milliseconds between the first and the last retained event (the
    subtraction of two timestamps is exact). *)
Definition span_of (count : nat) (duration : Z) : float :=
  let durationMinutes := (of_Z duration / 60000)%float in
  if (durationMinutes <=? 0)%float then 0%float
  else ((of_Z (Z.of_nat count) - 1) / durationMinutes)%float.

(** What the span-based [computeCadence] returns, on doubles, for the
    window [kept] it retains. *)
Definition span_rate (kept : list Z) : float :=
  let count := List.length kept in
  if (count =? 0)%nat then 0%float
  else if (2 <=? count)%nat then
    span_of count (nth (count - 1) kept 0 - nth 0 kept 0)
  else density (of_Z (Z.of_nat count)) 5.

(** The span-based rate for this count and duration is between 0 and
    200. *)
Definition span_check (count : nat) (duration : Z) : bool :=
  ((0 <=? span_of count duration) && (span_of count duration <=? 200))%float.

End Binary64.

(** ** Runs *)

(** A run in which the simulate button is never pressed. *)
Definition no_injection (trace : list Callback) : Prop :=
  Forall (fun c => match c with SimulateStep _ => False | _ => True end) trace.

(** A run in which no motion sample has arrived yet. *)
Definition no_motion (trace : list Callback) : Prop :=
  Forall (fun c => match c with Motion _ _ => False | _ => True end) trace.

(** The clock readings of the callbacks that can record a step. *)
Definition step_readings (trace : list Callback) : list Z :=
  flat_map
    (fun c => match c with
              | Motion _ now | SimulateStep now => [now]
              | ResetClick | Tick _ => []
              end) trace.

(** * Properties *)

(** ** Arithmetic on rates *)

Lemma Qlt_bool_iff (a b : Q) : Qlt_bool a b = true <-> (a < b)%Q.
Proof. unfold Qlt_bool, Qlt. apply Z.ltb_lt. Qed.

Lemma Qlt_bool_false_iff (a b : Q) : Qlt_bool a b = false <-> (b <= a)%Q.
Proof. unfold Qlt_bool, Qle. rewrite Z.ltb_ge. reflexivity. Qed.

Lemma Qle_bool_false_iff (a b : Q) : Qle_bool a b = false <-> (b < a)%Q.
Proof.
  split; intro H.
  - apply Qnot_le_lt. intro Hle. apply Qle_bool_iff in Hle. congruence.
  - destruct (Qle_bool a b) eqn:E; [|reflexivity].
    apply Qle_bool_iff in E. exfalso. apply (Qlt_not_le _ _ H E).
Qed.

Lemma divide_ok (a b : Q) : ~ (b == 0)%Q -> divide a b = Ok (a / b)%Q.
Proof.
  intro Hb. unfold divide.
  destruct (Qeq_bool b 0) eqn:E; [|reflexivity].
  apply Qeq_bool_iff in E. contradiction.
Qed.

Lemma divide_positive (a b : Q) : (0 < b)%Q -> divide a b = Ok (a / b)%Q.
Proof.
  intro Hb. apply divide_ok. intro E. rewrite E in Hb.
  exact (Qlt_irrefl 0 Hb).
Qed.

(** ** The rate never divides by zero *)

Lemma span_computeCadence_total (now : Z) (s : SpanBased.State) :
  exists s' r,
    SpanBased.computeCadence now s = Ok (s', r) /\
    SpanBased.stepTimestamps s' =
      filter (fun ts => now - 5 * 1000 <=? ts) (SpanBased.stepTimestamps s) /\
    (SpanBased.stepTimestamps s' = [] -> (r == 0)%Q).
Proof.
  unfold SpanBased.computeCadence.
  change (SpanBased.windowSeconds * 1000) with (5 * 1000).
  set (kept := filter _ _).
  destruct (List.length kept =? 0)%nat eqn:E0.
  - eexists _, _. split; [reflexivity|]. split; [reflexivity|].
    intros _. reflexivity.
  - apply Nat.eqb_neq in E0.
    assert (Hne : kept <> [])
      by (intro K; rewrite K in E0; apply E0; reflexivity).
    destruct (2 <=? List.length kept)%nat eqn:E2.
    + rewrite (divide_positive _ 60000) by reflexivity. cbn [bind].
      destruct (Qle_bool _ 0) eqn:Ed.
      * eexists _, _. split; [reflexivity|]. split; [reflexivity|].
        cbn. intro K. contradiction.
      * apply Qle_bool_false_iff in Ed.
        rewrite (divide_positive _ _ Ed). cbn [bind].
        eexists _, _. split; [reflexivity|]. split; [reflexivity|].
        cbn. intro K. contradiction.
    + rewrite (divide_positive _ (inject_Z SpanBased.windowSeconds))
        by reflexivity.
      cbn [bind].
      eexists _, _. split; [reflexivity|]. split; [reflexivity|].
      cbn. intro K. contradiction.
Qed.

Lemma density_computeCadence_total (now : Z) (s : DensityBased.State) :
  exists s' r,
    DensityBased.computeCadence now s = Ok (s', r) /\
    DensityBased.stepTimestamps s' =
      filter (fun ts => now - 5 * 1000 <=? ts)
        (DensityBased.stepTimestamps s) /\
    (DensityBased.stepTimestamps s' = [] -> (r == 0)%Q).
Proof.
  unfold DensityBased.computeCadence.
  change (DensityBased.windowSeconds * 1000) with (5 * 1000).
  set (kept := filter _ _).
  destruct (List.length kept =? 0)%nat eqn:E0.
  - eexists _, _. split; [reflexivity|]. split; [reflexivity|].
    intros _. reflexivity.
  - apply Nat.eqb_neq in E0.
    assert (Hne : kept <> [])
      by (intro K; rewrite K in E0; apply E0; reflexivity).
    rewrite (divide_positive _ (inject_Z DensityBased.windowSeconds))
      by reflexivity.
    cbn [bind].
    eexists _, _. split; [reflexivity|]. split; [reflexivity|].
    cbn. intro K. contradiction.
Qed.

(** C2. For every window content and every current time, [computeCadence]
    returns a rate and never reaches a division by zero, in both revisions;
    the window it leaves is the old one pruned to the trailing five seconds,
    and when nothing is retained the rate is 0. *)
Theorem computeCadence_never_divides_by_zero :
  (forall now s, exists s' r,
      SpanBased.computeCadence now s = Ok (s', r) /\
      SpanBased.stepTimestamps s' =
        filter (fun ts => now - 5 * 1000 <=? ts) (SpanBased.stepTimestamps s) /\
      (SpanBased.stepTimestamps s' = [] -> (r == 0)%Q)) /\
  (forall now s, exists s' r,
      DensityBased.computeCadence now s = Ok (s', r) /\
      DensityBased.stepTimestamps s' =
        filter (fun ts => now - 5 * 1000 <=? ts)
          (DensityBased.stepTimestamps s) /\
      (DensityBased.stepTimestamps s' = [] -> (r == 0)%Q)).
Proof.
  split; intros now s.
  - apply span_computeCadence_total.
  - apply density_computeCadence_total.
Qed.

Lemma computeCadence_never_divides_by_zero_witness :
  exists s' r,
    SpanBased.computeCadence 1000 SpanBased.init = Ok (s', r) /\
    (r == 0)%Q.
Proof.
  destruct computeCadence_never_divides_by_zero as [Hspan _].
  destruct (Hspan 1000 SpanBased.init) as [s' [r [Hc [Hkept Hzero]]]].
  exists s', r. split; [exact Hc|].
  apply Hzero. rewrite Hkept. reflexivity.
Defined.

(** ** Bands *)

Lemma intervals_lower_bound (bands : list (Q * St)) (final : St) :
  forall lo i,
    ascending (lo :: map fst bands) ->
    In i (intervals lo bands final) ->
    (lo <= fst (fst i))%Q.
Proof.
  induction bands as [|[b l] rest IH]; intros lo i Hasc Hin.
  - destruct Hin as [<-|[]]. cbn. apply Qle_refl.
  - destruct Hasc as [Hlt Hasc]. destruct Hin as [<-|Hin].
    + cbn. apply Qle_refl.
    + apply Qle_trans with b; [apply Qlt_le_weak; exact Hlt|].
      apply IH; assumption.
Qed.

(** With ascending bounds, a rate at or above the lowest bound lies in
    exactly one interval, and [first_band] returns that interval's label. *)
Lemma intervals_partition (bands : list (Q * St)) (final : St) (r : Q) :
  forall lo,
    ascending (lo :: map fst bands) ->
    (lo <= r)%Q ->
    exists i,
      In i (intervals lo bands final) /\
      in_interval r i /\
      snd i = first_band bands final r /\
      forall j, In j (intervals lo bands final) -> in_interval r j -> j = i.
Proof.
  induction bands as [|[b l] rest IH]; intros lo Hasc Hlo.
  - exists (lo, None, final). cbn. repeat split; auto.
    intros j [<-|[]] _. reflexivity.
  - destruct Hasc as [Hlt Hasc]. cbn [first_band intervals].
    destruct (Qlt_bool r b) eqn:E.
    + apply Qlt_bool_iff in E.
      exists (lo, Some b, l). repeat split; cbn; auto.
      intros j [<-|Hin] Hj; [reflexivity|].
      exfalso.
      pose proof (intervals_lower_bound rest final b j Hasc Hin) as Hb.
      destruct j as [[lo' [hi'|]] l']; cbn in Hb, Hj.
      * destruct Hj as [Hj _]. apply (Qlt_not_le _ _ E).
        apply Qle_trans with lo'; assumption.
      * apply (Qlt_not_le _ _ E). apply Qle_trans with lo'; assumption.
    + apply Qlt_bool_false_iff in E.
      destruct (IH b Hasc E) as [i [Hin [Hi [Hl Huniq]]]].
      exists i. repeat split; auto.
      * right. exact Hin.
      * intros j [<-|Hj] Hr.
        -- cbn in Hr. destruct Hr as [_ Hr]. exfalso.
           apply (Qlt_not_le _ _ Hr E).
        -- apply Huniq; assumption.
Qed.

Lemma span_classify_first_band (r : Q) :
  SpanBased.classify r = first_band span_bands SpanBased.song3 r.
Proof. reflexivity. Qed.

Lemma density_classify_first_band (r : Q) :
  DensityBased.classify r = first_band density_bands DensityBased.fast r.
Proof.
  unfold DensityBased.classify, density_bands, first_band.
  change DensityBased.THRESHOLD_STATIONARY with 20%Q.
  change DensityBased.THRESHOLD_FAST with 110%Q.
  destruct (Qlt_bool r 20) eqn:E1; [reflexivity|].
  destruct (Qlt_bool r 110) eqn:E2.
  - apply Qlt_bool_iff in E2. apply Qle_bool_false_iff in E2.
    rewrite E2. reflexivity.
  - apply Qlt_bool_false_iff in E2. apply Qle_bool_iff in E2.
    rewrite E2. reflexivity.
Qed.

(** C3. For every rate [r >= 0], in both revisions: [classify r] is the
    label of the first band whose upper bound is above [r], else the final
    label; the bounds are strictly ascending; [r] lies in exactly one of
    the half-open intervals the bounds cut out of [[0, +oo)], whose label
    is the one returned; and the labels of the bands are pairwise
    distinct. *)
Theorem classify_total_and_non_overlapping (r : Q) :
  (0 <= r)%Q ->
  (SpanBased.classify r = first_band span_bands SpanBased.song3 r /\
   ascending (map fst span_bands) /\
   NoDup (map snd (intervals 0 span_bands SpanBased.song3)) /\
   exists i,
     In i (intervals 0 span_bands SpanBased.song3) /\
     in_interval r i /\
     snd i = SpanBased.classify r /\
     forall j, In j (intervals 0 span_bands SpanBased.song3) ->
               in_interval r j -> j = i) /\
  (DensityBased.classify r = first_band density_bands DensityBased.fast r /\
   ascending (map fst density_bands) /\
   NoDup (map snd (intervals 0 density_bands DensityBased.fast)) /\
   exists i,
     In i (intervals 0 density_bands DensityBased.fast) /\
     in_interval r i /\
     snd i = DensityBased.classify r /\
     forall j, In j (intervals 0 density_bands DensityBased.fast) ->
               in_interval r j -> j = i).
Proof.
  intro Hr. split.
  - split; [apply span_classify_first_band|].
    split; [cbn; repeat split; reflexivity|].
    split.
    + cbn. repeat constructor; cbn; intro H;
        repeat (destruct H as [H|H]; [discriminate H|]); exact H.
    + rewrite span_classify_first_band.
      apply intervals_partition; [|exact Hr].
      cbn. repeat split; reflexivity.
  - split; [apply density_classify_first_band|].
    split; [cbn; repeat split; reflexivity|].
    split.
    + cbn. repeat constructor; cbn; intro H;
        repeat (destruct H as [H|H]; [discriminate H|]); exact H.
    + rewrite density_classify_first_band.
      apply intervals_partition; [|exact Hr].
      cbn. repeat split; reflexivity.
Qed.

Lemma classify_total_and_non_overlapping_witness :
  (0 <= 36)%Q /\
  SpanBased.classify 36 = SpanBased.trans1 /\
  DensityBased.classify 36 = DensityBased.walking.
Proof.
  pose proof (classify_total_and_non_overlapping 36) as H.
  split; [discriminate|].
  destruct H as [[H1 _] [H2 _]]; [discriminate|].
  split; [rewrite H1|rewrite H2]; reflexivity.
Defined.

(** ** The event window *)

Section Spacing.

Variable gap : Z.
Hypothesis gap_nonneg : 0 <= gap.

Lemma spaced_tail (a : Z) (l : list Z) : spaced gap (a :: l) -> spaced gap l.
Proof. destruct l; cbn; tauto. Qed.

Lemma spaced_head (a : Z) (l : list Z) :
  spaced gap (a :: l) -> Forall (fun t => a + gap <= t) l.
Proof.
  revert a. induction l as [|b l IH]; intros a H; constructor.
  - apply H.
  - destruct H as [Hab Hl]. specialize (IH b Hl).
    destruct l as [|c l]; [constructor|].
    inversion IH as [|? ? Hc Hrest]; subst.
    constructor; [lia|].
    eapply Forall_impl; [|exact Hrest]. cbn. intros; lia.
Qed.

Lemma spaced_cons (a : Z) (l : list Z) :
  Forall (fun t => a + gap <= t) l -> spaced gap l -> spaced gap (a :: l).
Proof.
  intros Hall Hl. destruct l as [|b l]; [exact I|].
  split; [|exact Hl]. inversion Hall; assumption.
Qed.

Lemma spaced_filter (f : Z -> bool) (l : list Z) :
  spaced gap l -> spaced gap (filter f l).
Proof.
  induction l as [|a l IH]; intro H; [exact I|].
  cbn [filter]. pose proof (spaced_head a l H) as Hhead.
  specialize (IH (spaced_tail a l H)).
  destruct (f a); [|exact IH].
  apply spaced_cons; [|exact IH].
  apply Forall_forall. intros t Ht. apply filter_In in Ht.
  rewrite Forall_forall in Hhead. apply Hhead. apply Ht.
Qed.

Lemma spaced_push (l : list Z) (t : Z) :
  Forall (fun u => u + gap <= t) l -> spaced gap l -> spaced gap (l ++ [t]).
Proof.
  induction l as [|a l IH]; intros Hall Hl; [exact I|].
  inversion Hall as [|? ? Ha Hrest]; subst.
  specialize (IH Hrest (spaced_tail a l Hl)).
  destruct l as [|b l]; cbn.
  - split; [exact Ha|exact I].
  - split; [apply Hl|exact IH].
Qed.

Lemma spaced_no_two_closer (l : list Z) :
  spaced gap l -> no_two_closer_than gap l.
Proof.
  induction l as [|a l IH]; intros H i j [Hij Hj]; [cbn in Hj; lia|].
  pose proof (spaced_head a l H) as Hhead.
  specialize (IH (spaced_tail a l H)).
  destruct j as [|j]; [lia|]. cbn in Hj.
  destruct i as [|i]; cbn [nth].
  - rewrite Forall_forall in Hhead.
    assert (Hin : In (nth j l 0) l) by (apply nth_In; lia).
    specialize (Hhead _ Hin). lia.
  - apply IH. lia.
Qed.

Lemma spaced_non_decreasing (l : list Z) :
  spaced gap l -> non_decreasing l.
Proof.
  intros H i j [Hij Hj].
  destruct (Nat.eq_dec i j) as [->|Hne]; [lia|].
  pose proof (spaced_no_two_closer l H i j). lia.
Qed.

(** Accepting [ts] after the gate let it through. *)
Lemma window_ok_push (last ts : Z) (l : list Z) :
  (ts - last <? gap) = false ->
  window_ok gap last l -> window_ok gap ts (l ++ [ts]).
Proof.
  intros Hgate [Hs Hle]. apply Z.ltb_ge in Hgate. split.
  - apply spaced_push; [|exact Hs].
    eapply Forall_impl; [|exact Hle]. cbn. intros; lia.
  - apply Forall_app. split.
    + eapply Forall_impl; [|exact Hle]. cbn. intros; lia.
    + constructor; [lia|constructor].
Qed.

Lemma window_ok_filter (f : Z -> bool) (last : Z) (l : list Z) :
  window_ok gap last l -> window_ok gap last (filter f l).
Proof.
  intros [Hs Hle]. split; [apply spaced_filter; exact Hs|].
  apply Forall_forall. intros t Ht. apply filter_In in Ht.
  rewrite Forall_forall in Hle. apply Hle. apply Ht.
Qed.

Lemma window_ok_empty (last : Z) : window_ok gap last [].
Proof. split; [exact I|constructor]. Qed.

End Spacing.

(** [computeCadence] changes nothing but the window, which it prunes. *)
Lemma span_computeCadence_state (now : Z) (s s' : SpanBased.State) (r : Q) :
  SpanBased.computeCadence now s = Ok (s', r) ->
  s' = SpanBased.mkState (SpanBased.lastStepTs s)
         (filter (fun ts => now - 5 * 1000 <=? ts) (SpanBased.stepTimestamps s))
         (SpanBased.gravity s) (SpanBased.cadenceHistory s)
         (SpanBased.chartData s) (SpanBased.lastFiltered s)
         (SpanBased.lastPeakTime s) (SpanBased.prevFiltered s)
         (SpanBased.cadenceEl s) (SpanBased.stateEl s).
Proof.
  unfold SpanBased.computeCadence.
  change (SpanBased.windowSeconds * 1000) with (5 * 1000).
  set (kept := filter _ _).
  destruct (List.length kept =? 0)%nat; [intro H; inversion H; reflexivity|].
  destruct (2 <=? List.length kept)%nat.
  - destruct (divide _ 60000) as [d|]; cbn [bind]; [|discriminate].
    destruct (Qle_bool d 0); [intro H; inversion H; reflexivity|].
    destruct (divide _ d) as [c|]; cbn [bind]; [|discriminate].
    intro H; inversion H; reflexivity.
  - destruct (divide _ _) as [c|]; cbn [bind]; [|discriminate].
    intro H; inversion H; reflexivity.
Qed.

Lemma density_computeCadence_state (now : Z) (s s' : DensityBased.State)
  (r : Q) :
  DensityBased.computeCadence now s = Ok (s', r) ->
  s' = DensityBased.mkState (DensityBased.lastStepTs s)
         (filter (fun ts => now - 5 * 1000 <=? ts)
            (DensityBased.stepTimestamps s))
         (DensityBased.gravity s) (DensityBased.cadenceHistory s)
         (DensityBased.chartData s) (DensityBased.lastFiltered s)
         (DensityBased.lastPeakTime s) (DensityBased.cadenceEl s)
         (DensityBased.stateEl s).
Proof.
  unfold DensityBased.computeCadence.
  change (DensityBased.windowSeconds * 1000) with (5 * 1000).
  set (kept := filter _ _).
  destruct (List.length kept =? 0)%nat; [intro H; inversion H; reflexivity|].
  destruct (divide _ _) as [c|]; cbn [bind]; [|discriminate].
  intro H; inversion H; reflexivity.
Qed.

Section SpanWindow.

Import SpanBased.

Lemma span_onStep_ok (ts : Z) (s : State) :
  window_invariant s -> window_invariant (onStep ts s).
Proof.
  unfold window_invariant, onStep. intro H.
  destruct (ts - lastStepTs s <? MIN_STEP_INTERVAL) eqn:E; [exact H|].
  cbn [lastStepTs stepTimestamps].
  apply (window_ok_push MIN_STEP_INTERVAL) with (last := lastStepTs s);
    [discriminate|exact E|exact H].
Qed.

Lemma span_handleMotion_ok (ev : DeviceMotionEvent) (now : Z) (s : State) :
  window_invariant s -> window_invariant (handleMotion ev now s).
Proof.
  intro H. unfold handleMotion.
  destruct (accelerationIncludingGravity ev) as [a|]; [|exact H].
  cbv zeta.
  match goal with |- context [if ?c then _ else _] => destruct c end.
  - match goal with |- context [onStep now ?t] =>
      pose proof (span_onStep_ok now t H) as Hs;
      destruct (onStep now t) end.
    exact Hs.
  - exact H.
Qed.

Lemma span_tick_ok (now : Z) (s : State) :
  window_invariant s -> exists s', tick now s = Ok s' /\ window_invariant s'.
Proof.
  intro H. unfold tick.
  destruct (span_computeCadence_total now s) as [s1 [r [Hc _]]].
  rewrite Hc. cbn [bind].
  eexists. split; [reflexivity|].
  apply span_computeCadence_state in Hc. subst s1.
  unfold window_invariant. cbn [pushHistory updateUI lastStepTs stepTimestamps].
  apply window_ok_filter; [discriminate|exact H].
Qed.

Lemma span_step_ok (c : Callback) (s : State) :
  window_invariant s -> exists s', step c s = Ok s' /\ window_invariant s'.
Proof.
  intro H. destruct c as [ev now|now| |now]; cbn [step].
  - eexists. split; [reflexivity|]. apply span_handleMotion_ok, H.
  - eexists. split; [reflexivity|]. apply span_onStep_ok, H.
  - eexists. split; [reflexivity|]. apply window_ok_empty.
  - apply span_tick_ok, H.
Qed.

Lemma span_run_ok (trace : list Callback) :
  forall s,
    window_invariant s ->
    exists s', run trace s = Ok s' /\ window_invariant s'.
Proof.
  induction trace as [|c rest IH]; intros s H; cbn [run].
  - exists s. split; [reflexivity|exact H].
  - destruct (span_step_ok c s H) as [s1 [Hs1 H1]].
    rewrite Hs1. cbn [bind]. apply IH, H1.
Qed.

End SpanWindow.

Section DensityWindow.

Import DensityBased.

Lemma density_onStep_ok (ts : Z) (s : State) :
  window_invariant s -> window_invariant (onStep ts s).
Proof.
  unfold window_invariant, onStep. intro H.
  destruct (ts - lastStepTs s <? MIN_STEP_INTERVAL) eqn:E; [exact H|].
  cbn [lastStepTs stepTimestamps].
  apply (window_ok_push MIN_STEP_INTERVAL) with (last := lastStepTs s);
    [discriminate|exact E|exact H].
Qed.

Lemma density_handleMotion_ok (ev : DeviceMotionEvent) (now : Z)
  (s : State) :
  window_invariant s -> window_invariant (handleMotion ev now s).
Proof.
  intro H. unfold handleMotion.
  destruct (accelerationIncludingGravity ev) as [a|]; [|exact H].
  cbv zeta.
  match goal with |- context [if ?c then _ else _] => destruct c end.
  - match goal with |- context [onStep now ?t] =>
      pose proof (density_onStep_ok now t H) as Hs;
      destruct (onStep now t) end.
    exact Hs.
  - exact H.
Qed.

Lemma density_tick_ok (now : Z) (s : State) :
  window_invariant s -> exists s', tick now s = Ok s' /\ window_invariant s'.
Proof.
  intro H. unfold tick.
  destruct (density_computeCadence_total now s) as [s1 [r [Hc _]]].
  rewrite Hc. cbn [bind].
  eexists. split; [reflexivity|].
  apply density_computeCadence_state in Hc. subst s1.
  unfold window_invariant. cbn [pushHistory updateUI lastStepTs stepTimestamps].
  apply window_ok_filter; [discriminate|exact H].
Qed.

Lemma density_step_ok (c : Callback) (s : State) :
  window_invariant s -> exists s', step c s = Ok s' /\ window_invariant s'.
Proof.
  intro H. destruct c as [ev now|now| |now]; cbn [step].
  - eexists. split; [reflexivity|]. apply density_handleMotion_ok, H.
  - eexists. split; [reflexivity|]. apply density_onStep_ok, H.
  - eexists. split; [reflexivity|]. apply window_ok_empty.
  - apply density_tick_ok, H.
Qed.

Lemma density_run_ok (trace : list Callback) :
  forall s,
    window_invariant s ->
    exists s', run trace s = Ok s' /\ window_invariant s'.
Proof.
  induction trace as [|c rest IH]; intros s H; cbn [run].
  - exists s. split; [reflexivity|exact H].
  - destruct (density_step_ok c s H) as [s1 [Hs1 H1]].
    rewrite Hs1. cbn [bind]. apply IH, H1.
Qed.

End DensityWindow.

(** C9. Under a non-decreasing clock, every run of callbacks from the
    initial state ends in a state (no callback faults), and in that state,
    so after every record and every compute, the window's timestamps are in
    non-decreasing order and any two entries are at least the refractory
    interval apart: 300 ms in the span-based revision, 250 ms in the
    density-based one. *)
Theorem window_sorted_and_spaced (trace : list Callback) :
  monotonic_clock trace ->
  (exists s,
      SpanBased.run trace SpanBased.init = Ok s /\
      non_decreasing (SpanBased.stepTimestamps s) /\
      no_two_closer_than SpanBased.MIN_STEP_INTERVAL
        (SpanBased.stepTimestamps s)) /\
  (exists s,
      DensityBased.run trace DensityBased.init = Ok s /\
      non_decreasing (DensityBased.stepTimestamps s) /\
      no_two_closer_than DensityBased.MIN_STEP_INTERVAL
        (DensityBased.stepTimestamps s)).
Proof.
  intros _. split.
  - destruct (span_run_ok trace SpanBased.init) as [s [Hrun [Hs _]]].
    { apply window_ok_empty. }
    exists s. split; [exact Hrun|]. split.
    + apply (spaced_non_decreasing SpanBased.MIN_STEP_INTERVAL);
        [discriminate|exact Hs].
    + apply spaced_no_two_closer; [discriminate|exact Hs].
  - destruct (density_run_ok trace DensityBased.init) as [s [Hrun [Hs _]]].
    { apply window_ok_empty. }
    exists s. split; [exact Hrun|]. split.
    + apply (spaced_non_decreasing DensityBased.MIN_STEP_INTERVAL);
        [discriminate|exact Hs].
    + apply spaced_no_two_closer; [discriminate|exact Hs].
Qed.

Lemma window_sorted_and_spaced_witness :
  monotonic_clock
    [SimulateStep 1000; SimulateStep 1100; Tick 1500; SimulateStep 2000;
     ResetClick; Tick 2500; SimulateStep 2600] /\
  exists s,
    DensityBased.run
      [SimulateStep 1000; SimulateStep 1100; Tick 1500; SimulateStep 2000;
       ResetClick; Tick 2500; SimulateStep 2600] DensityBased.init = Ok s /\
    non_decreasing (DensityBased.stepTimestamps s).
Proof.
  split.
  - cbn. lia.
  - destruct (window_sorted_and_spaced
                [SimulateStep 1000; SimulateStep 1100; Tick 1500;
                 SimulateStep 2000; ResetClick; Tick 2500; SimulateStep 2600])
      as [_ [s [Hrun [Hsorted _]]]].
    + cbn. lia.
    + exists s. split; assumption.
Defined.

(** ** The refractory gate *)

Lemma span_onStep_accept (ts : Z) (s : SpanBased.State) :
  SpanBased.lastStepTs s + 300 <= ts ->
  SpanBased.onStep ts s =
    SpanBased.mkState ts (SpanBased.stepTimestamps s ++ [ts])
      (SpanBased.gravity s) (SpanBased.cadenceHistory s)
      (SpanBased.chartData s) (SpanBased.lastFiltered s)
      (SpanBased.lastPeakTime s) (SpanBased.prevFiltered s)
      (SpanBased.cadenceEl s) (SpanBased.stateEl s).
Proof.
  intro H. unfold SpanBased.onStep, SpanBased.MIN_STEP_INTERVAL.
  destruct (Z.ltb_spec (ts - SpanBased.lastStepTs s) 300); [lia|reflexivity].
Qed.

Lemma span_onStep_reject (ts : Z) (s : SpanBased.State) :
  ts - SpanBased.lastStepTs s < 300 -> SpanBased.onStep ts s = s.
Proof.
  intro H. unfold SpanBased.onStep, SpanBased.MIN_STEP_INTERVAL.
  destruct (Z.ltb_spec (ts - SpanBased.lastStepTs s) 300); [reflexivity|lia].
Qed.

Lemma density_onStep_accept (ts : Z) (s : DensityBased.State) :
  DensityBased.lastStepTs s + 250 <= ts ->
  DensityBased.onStep ts s =
    DensityBased.mkState ts (DensityBased.stepTimestamps s ++ [ts])
      (DensityBased.gravity s) (DensityBased.cadenceHistory s)
      (DensityBased.chartData s) (DensityBased.lastFiltered s)
      (DensityBased.lastPeakTime s) (DensityBased.cadenceEl s)
      (DensityBased.stateEl s).
Proof.
  intro H. unfold DensityBased.onStep, DensityBased.MIN_STEP_INTERVAL.
  destruct (Z.ltb_spec (ts - DensityBased.lastStepTs s) 250);
    [lia|reflexivity].
Qed.

Lemma density_onStep_reject (ts : Z) (s : DensityBased.State) :
  ts - DensityBased.lastStepTs s < 250 -> DensityBased.onStep ts s = s.
Proof.
  intro H. unfold DensityBased.onStep, DensityBased.MIN_STEP_INTERVAL.
  destruct (Z.ltb_spec (ts - DensityBased.lastStepTs s) 250);
    [reflexivity|lia].
Qed.

(** The window after a motion sample is the old window, or the window
    [onStep] leaves at that time: a detection records through [onStep]. *)
Lemma density_handleMotion_records_through_onStep
  (ev : DeviceMotionEvent) (now : Z) (s : DensityBased.State) :
  DensityBased.stepTimestamps (DensityBased.handleMotion ev now s) =
    DensityBased.stepTimestamps s \/
  DensityBased.stepTimestamps (DensityBased.handleMotion ev now s) =
    DensityBased.stepTimestamps (DensityBased.onStep now s).
Proof.
  unfold DensityBased.handleMotion.
  destruct (accelerationIncludingGravity ev) as [a|]; [|left; reflexivity].
  cbv zeta.
  match goal with |- context [if ?c then _ else _] => destruct c end.
  - right. unfold DensityBased.onStep.
    cbn [DensityBased.lastStepTs DensityBased.stepTimestamps].
    destruct (now - DensityBased.lastStepTs s <? _); reflexivity.
  - left. reflexivity.
Qed.

(** C5, as amended. With the 250 ms refractory interval and the initial
    state, injecting at clock readings [t0] and [t0 + 200], for any
    [t0 >= 250], accepts the first event and rejects the second: the window
    holds [t0] alone and its length stays 1. *)
Theorem density_second_injection_rejected (t0 : Z) :
  250 <= t0 ->
  DensityBased.MIN_STEP_INTERVAL = 250 /\
  DensityBased.stepTimestamps
    (DensityBased.simulateStep t0 DensityBased.init) = [t0] /\
  DensityBased.simulateStep (t0 + 200)
    (DensityBased.simulateStep t0 DensityBased.init) =
    DensityBased.simulateStep t0 DensityBased.init /\
  List.length
    (DensityBased.stepTimestamps
       (DensityBased.simulateStep (t0 + 200)
          (DensityBased.simulateStep t0 DensityBased.init))) = 1%nat.
Proof.
  intro H. unfold DensityBased.simulateStep.
  split; [reflexivity|].
  rewrite (density_onStep_accept t0 DensityBased.init) by (cbn; lia).
  split; [reflexivity|].
  rewrite density_onStep_reject by (cbn; lia).
  split; reflexivity.
Qed.

Lemma density_second_injection_rejected_witness :
  250 <= 1000 /\
  DensityBased.stepTimestamps
    (DensityBased.simulateStep 1200
       (DensityBased.simulateStep 1000 DensityBased.init)) = [1000].
Proof.
  split; [lia|].
  destruct (density_second_injection_rejected 1000) as [_ [H1 [H2 _]]];
    [lia|].
  change (1000 + 200) with 1200 in H2. rewrite H2. exact H1.
Defined.

(** C5, as stated, fails at the clock readings 0 and 200: [lastStepTs]
    starts at 0, so the injection at 0 is rejected too and the window stays
    empty. *)
Lemma density_injection_at_zero_rejected :
  DensityBased.stepTimestamps
    (DensityBased.simulateStep 0 DensityBased.init) = [] /\
  List.length
    (DensityBased.stepTimestamps
       (DensityBased.simulateStep 200
          (DensityBased.simulateStep 0 DensityBased.init))) <> 1%nat.
Proof. split; [reflexivity|discriminate]. Qed.

(** ** Worked rates *)

(** C6, as amended. In the density-based revision, with the five-second
    window and the initial state, injecting three events at clock readings
    [t0], [t0 + 1000] and [t0 + 2000], for any [t0 >= 250], and computing
    at [t0 + 2000] retains all three and yields [(3/5)*60 = 36] events per
    minute (on doubles as well).  Injection is [onStep] itself, the path a
    detection from a motion sample records through, and it is rejected
    whenever the time since [lastStepTs] is below the refractory interval. *)
Theorem density_three_injections_rate_36 (t0 : Z) :
  250 <= t0 ->
  (exists s' r,
      DensityBased.computeCadence (t0 + 2000)
        (DensityBased.simulateStep (t0 + 2000)
           (DensityBased.simulateStep (t0 + 1000)
              (DensityBased.simulateStep t0 DensityBased.init))) =
        Ok (s', r) /\
      DensityBased.stepTimestamps s' = [t0; t0 + 1000; t0 + 2000] /\
      (r == 36)%Q /\
      (r == (3 / 5) * 60)%Q) /\
  DensityBased.windowSeconds = 5 /\
  Binary64.density 3 5 = 36%float /\
  (forall now s, DensityBased.simulateStep now s = DensityBased.onStep now s) /\
  (forall ev now s,
      DensityBased.stepTimestamps (DensityBased.handleMotion ev now s) =
        DensityBased.stepTimestamps s \/
      DensityBased.stepTimestamps (DensityBased.handleMotion ev now s) =
        DensityBased.stepTimestamps (DensityBased.onStep now s)) /\
  (forall now s,
      now - DensityBased.lastStepTs s < DensityBased.MIN_STEP_INTERVAL ->
      DensityBased.simulateStep now s = s).
Proof.
  intro H. split; [|split; [reflexivity|split; [reflexivity|split;
    [reflexivity|split;
      [exact density_handleMotion_records_through_onStep
      |intros now s; apply density_onStep_reject]]]]].
  unfold DensityBased.simulateStep.
  rewrite (density_onStep_accept t0 DensityBased.init) by (cbn; lia).
  rewrite (density_onStep_accept (t0 + 1000)) by (cbn; lia).
  rewrite (density_onStep_accept (t0 + 2000)) by (cbn; lia).
  unfold DensityBased.computeCadence.
  cbn [DensityBased.stepTimestamps DensityBased.init DensityBased.updateUI
       app].
  change (DensityBased.windowSeconds * 1000) with 5000.
  cbn [filter].
  replace (t0 + 2000 - 5000 <=? t0) with true
    by (symmetry; apply Z.leb_le; lia).
  replace (t0 + 2000 - 5000 <=? t0 + 1000) with true
    by (symmetry; apply Z.leb_le; lia).
  replace (t0 + 2000 - 5000 <=? t0 + 2000) with true
    by (symmetry; apply Z.leb_le; lia).
  cbn [List.length Nat.eqb].
  rewrite divide_positive by reflexivity. cbn [bind].
  eexists _, _. split; [reflexivity|].
  split; [reflexivity|]. split; reflexivity.
Qed.

Lemma density_three_injections_rate_36_witness :
  250 <= 10000 /\
  exists s' r,
    DensityBased.computeCadence 12000
      (DensityBased.simulateStep 12000
         (DensityBased.simulateStep 11000
            (DensityBased.simulateStep 10000 DensityBased.init))) =
      Ok (s', r) /\
    (r == 36)%Q.
Proof.
  split; [lia|].
  destruct (density_three_injections_rate_36 10000)
    as [[s' [r [Hc [_ [Hr _]]]]] _];
    [lia|].
  exists s', r. split; [exact Hc|exact Hr].
Defined.

(** C6, as stated, fails at the clock readings 0, 1000 and 2000: the
    injection at 0 is rejected by the gate ([lastStepTs] starts at 0), two
    events are retained and the rate is [(2/5)*60 = 24]. *)
Lemma density_three_injections_from_zero_rate_24 :
  exists s' r,
    DensityBased.computeCadence 2000
      (DensityBased.simulateStep 2000
         (DensityBased.simulateStep 1000
            (DensityBased.simulateStep 0 DensityBased.init))) = Ok (s', r) /\
    DensityBased.stepTimestamps s' = [1000; 2000] /\
    (r == 24)%Q /\
    ~ (r == 36)%Q.
Proof.
  eexists _, _. split; [vm_compute; reflexivity|].
  split; [reflexivity|]. split; [reflexivity|discriminate].
Qed.

(** C7. In the span-based revision, with the five-second window and the
    initial state, injecting three events at 0, 1000 and 2000 ms and
    computing at 2000 ms yields 60 events per minute, the value of
    [(3-1)/((2000-0)/60000)].  The script reaches it as
    [(2-1)/((2000-1000)/60000)]: the window it computes on is
    [[1000; 2000]].  On doubles both expressions are exactly 60. *)
Theorem span_three_injections_rate_60 :
  exists s' r,
    SpanBased.computeCadence 2000
      (SpanBased.simulateStep 2000
         (SpanBased.simulateStep 1000
            (SpanBased.simulateStep 0 SpanBased.init))) = Ok (s', r) /\
    (r == 60)%Q /\
    (r == (3 - 1) / ((2000 - 0) / 60000))%Q /\
    SpanBased.windowSeconds = 5 /\
    SpanBased.stepTimestamps s' = [1000; 2000] /\
    Binary64.span 2 1000 2000 = 60%float /\
    Binary64.span 3 0 2000 = 60%float.
Proof.
  eexists _, _. split; [vm_compute; reflexivity|].
  repeat split; reflexivity.
Qed.

(** With the clock away from 0 all three injections are retained, and the
    rate is 60 as well. *)
Lemma span_three_injections_shifted (t0 : Z) :
  300 <= t0 ->
  exists s' r,
    SpanBased.computeCadence (t0 + 2000)
      (SpanBased.simulateStep (t0 + 2000)
         (SpanBased.simulateStep (t0 + 1000)
            (SpanBased.simulateStep t0 SpanBased.init))) = Ok (s', r) /\
    SpanBased.stepTimestamps s' = [t0; t0 + 1000; t0 + 2000] /\
    (r == 60)%Q.
Proof.
  intro H. unfold SpanBased.simulateStep.
  rewrite (span_onStep_accept t0 SpanBased.init) by (cbn; lia).
  rewrite (span_onStep_accept (t0 + 1000)) by (cbn; lia).
  rewrite (span_onStep_accept (t0 + 2000)) by (cbn; lia).
  unfold SpanBased.computeCadence.
  cbn [SpanBased.stepTimestamps SpanBased.init SpanBased.updateUI app].
  change (SpanBased.windowSeconds * 1000) with 5000.
  cbn [filter].
  replace (t0 + 2000 - 5000 <=? t0) with true
    by (symmetry; apply Z.leb_le; lia).
  replace (t0 + 2000 - 5000 <=? t0 + 1000) with true
    by (symmetry; apply Z.leb_le; lia).
  replace (t0 + 2000 - 5000 <=? t0 + 2000) with true
    by (symmetry; apply Z.leb_le; lia).
  cbn [List.length Nat.eqb Nat.leb Nat.sub nth].
  replace (t0 + 2000 - t0) with 2000 by lia.
  rewrite divide_positive by reflexivity. cbn [bind].
  replace (Qle_bool (inject_Z 2000 / 60000) 0) with false by reflexivity.
  rewrite divide_positive by reflexivity. cbn [bind].
  eexists _, _. split; [reflexivity|].
  split; reflexivity.
Qed.

(** C10. In the span-based revision, when pruning leaves at least two
    events and the first and last retained timestamps are equal,
    [computeCadence] returns the rate 0 (no fault, no division by the zero
    span), leaving the pruned window. *)
Theorem span_zero_span_rate_0 (now : Z) (s : SpanBased.State)
  (kept : list Z) :
  kept = filter (fun ts => now - 5 * 1000 <=? ts)
           (SpanBased.stepTimestamps s) ->
  (2 <= List.length kept)%nat ->
  nth 0 kept 0 = nth (List.length kept - 1) kept 0 ->
  exists s',
    SpanBased.computeCadence now s = Ok (s', 0%Q) /\
    SpanBased.stepTimestamps s' = kept.
Proof.
  intros Hkept Hlen Hspan. unfold SpanBased.computeCadence.
  change (SpanBased.windowSeconds * 1000) with (5 * 1000).
  rewrite <- Hkept.
  destruct (List.length kept =? 0)%nat eqn:E0;
    [apply Nat.eqb_eq in E0; lia|].
  destruct (2 <=? List.length kept)%nat eqn:E2;
    [|apply Nat.leb_gt in E2; lia].
  rewrite <- Hspan, Z.sub_diag.
  rewrite divide_positive by reflexivity. cbn [bind].
  replace (Qle_bool (inject_Z 0 / 60000) 0) with true by reflexivity.
  eexists. split; reflexivity.
Qed.

Lemma span_zero_span_rate_0_witness :
  exists s',
    SpanBased.computeCadence 7000
      (SpanBased.mkState 6000 [1000; 6000; 6000] (mkVec3 0 0 0) [] []
         0%float 0 0%float Dashes SpanBased.initializing) = Ok (s', 0%Q) /\
    SpanBased.stepTimestamps s' = [6000; 6000].
Proof.
  apply (span_zero_span_rate_0 7000
           (SpanBased.mkState 6000 [1000; 6000; 6000] (mkVec3 0 0 0) [] []
              0%float 0 0%float Dashes SpanBased.initializing)
           [6000; 6000]).
  - reflexivity.
  - cbn. lia.
  - reflexivity.
Defined.

(** ** Reset *)

(** C1, as amended. After [resetAll], from any state, in both revisions:
    the window is empty, each of the 60 history slots is [null], and the
    classification that [resetAll] itself delivers is the "initializing"
    state with the cadence text ['--'].  The next tick with no event in
    between computes the rate 0 and delivers the lowest band (and pushes 0
    into the history). *)
Theorem reset_clears_and_shows_initializing :
  (forall (s : SpanBased.State) (now : Z),
      SpanBased.stepTimestamps (SpanBased.resetAll s) = [] /\
      SpanBased.cadenceHistory (SpanBased.resetAll s) = repeat None 60 /\
      SpanBased.chartData (SpanBased.resetAll s) = repeat None 60 /\
      SpanBased.stateEl (SpanBased.resetAll s) = SpanBased.initializing /\
      SpanBased.cadenceEl (SpanBased.resetAll s) = Dashes /\
      exists s2,
        SpanBased.tick now (SpanBased.resetAll s) = Ok s2 /\
        SpanBased.cadenceEl s2 = Rounded 0 /\
        SpanBased.stateEl s2 = SpanBased.song1 /\
        SpanBased.stepTimestamps s2 = [] /\
        SpanBased.cadenceHistory s2 = repeat None 59 ++ [Some 0%Q]) /\
  (forall (s : DensityBased.State) (now : Z),
      DensityBased.stepTimestamps (DensityBased.resetAll s) = [] /\
      DensityBased.cadenceHistory (DensityBased.resetAll s) = repeat None 60 /\
      DensityBased.chartData (DensityBased.resetAll s) = repeat None 60 /\
      DensityBased.stateEl (DensityBased.resetAll s) =
        DensityBased.initializing /\
      DensityBased.cadenceEl (DensityBased.resetAll s) = Dashes /\
      exists s2,
        DensityBased.tick now (DensityBased.resetAll s) = Ok s2 /\
        DensityBased.cadenceEl s2 = Rounded 0 /\
        DensityBased.stateEl s2 = DensityBased.stationary /\
        DensityBased.stepTimestamps s2 = [] /\
        DensityBased.cadenceHistory s2 = repeat None 59 ++ [Some 0%Q]).
Proof.
  split; intros s now; repeat (split; [reflexivity|]);
    eexists; (split; [reflexivity|]); repeat split; reflexivity.
Qed.

(** C1, as stated, fails on its last part: on the tick after a reset, with
    no event in between, the state delivered is the lowest rate band and
    not "initializing", in both revisions. *)
Lemma tick_after_reset_shows_lowest_band :
  (exists s2,
      SpanBased.tick 1000 (SpanBased.resetAll SpanBased.init) = Ok s2 /\
      SpanBased.stateEl s2 = SpanBased.song1 /\
      SpanBased.stateEl s2 <> SpanBased.initializing) /\
  (exists s2,
      DensityBased.tick 1000 (DensityBased.resetAll DensityBased.init) =
        Ok s2 /\
      DensityBased.stateEl s2 = DensityBased.stationary /\
      DensityBased.stateEl s2 <> DensityBased.initializing).
Proof.
  split; eexists; (split; [reflexivity|]); split;
    [reflexivity|discriminate|reflexivity|discriminate].
Qed.

(** ** Malformed samples *)




(** In the arithmetic of [handleMotion] a null component counts as 0: a
    reading with three null components is handled as the reading
    (0, 0, 0) is. *)
Lemma handleMotion_null_components_as_zeros (now : Z)
  (s1 : SpanBased.State) (s2 : DensityBased.State) :
  SpanBased.handleMotion (mkEv (Some (mkAcc None None None))) now s1 =
    SpanBased.handleMotion
      (mkEv (Some (mkAcc (Some 0%float) (Some 0%float) (Some 0%float))))
      now s1 /\
  DensityBased.handleMotion (mkEv (Some (mkAcc None None None))) now s2 =
    DensityBased.handleMotion
      (mkEv (Some (mkAcc (Some 0%float) (Some 0%float) (Some 0%float))))
      now s2.
Proof. split; reflexivity. Qed.

(** ** Rate against the number of retained events *)

Lemma per_minute_monotone (a b : Q) :
  (a <= b)%Q -> (a / 5 * 60 <= b / 5 * 60)%Q.
Proof.
  intro H. apply Qmult_le_compat_r; [|discriminate].
  apply Qmult_le_compat_r; [exact H|discriminate].
Qed.

Lemma per_minute_nonneg (b : Q) : (0 <= b)%Q -> (0 <= b / 5 * 60)%Q.
Proof.
  intro H. apply Qmult_le_0_compat; [|discriminate].
  apply Qle_shift_div_l; [reflexivity|]. lra.
Qed.

Lemma density_rate_monotone (now : Z) (s1 s2 s1' s2' : DensityBased.State)
  (r1 r2 : Q) :
  DensityBased.computeCadence now s1 = Ok (s1', r1) ->
  DensityBased.computeCadence now s2 = Ok (s2', r2) ->
  (List.length (DensityBased.stepTimestamps s1') <=
   List.length (DensityBased.stepTimestamps s2'))%nat ->
  (r1 <= r2)%Q.
Proof.
  intros H1 H2 Hlen.
  pose proof (density_computeCadence_state _ _ _ _ H1) as E1.
  pose proof (density_computeCadence_state _ _ _ _ H2) as E2.
  subst s1' s2'. cbn [DensityBased.stepTimestamps] in Hlen.
  unfold DensityBased.computeCadence in H1, H2.
  change (DensityBased.windowSeconds * 1000) with (5 * 1000) in H1, H2.
  change (inject_Z DensityBased.windowSeconds) with 5%Q in H1, H2.
  revert H1 H2 Hlen.
  set (n1 := List.length (filter _ (DensityBased.stepTimestamps s1))).
  set (n2 := List.length (filter _ (DensityBased.stepTimestamps s2))).
  intros H1 H2 Hlen.
  rewrite !(divide_positive _ 5) in * by reflexivity. cbn [bind] in H1, H2.
  assert (Hq : (inject_Z (Z.of_nat n1) <= inject_Z (Z.of_nat n2))%Q)
    by (rewrite <- Zle_Qle; lia).
  assert (H0 : (0 <= inject_Z (Z.of_nat n2))%Q)
    by (change 0%Q with (inject_Z 0); rewrite <- Zle_Qle; lia).
  destruct (n1 =? 0)%nat eqn:En1; destruct (n2 =? 0)%nat eqn:En2;
    inversion H1; inversion H2; subst.
  - apply Qle_refl.
  - apply per_minute_nonneg, H0.
  - apply Nat.eqb_eq in En2. apply Nat.eqb_neq in En1. lia.
  - apply per_minute_monotone, Hq.
Qed.

Lemma span_rate_monotone (now : Z) (s1 s2 s1' s2' : SpanBased.State)
  (r1 r2 : Q) :
  SpanBased.computeCadence now s1 = Ok (s1', r1) ->
  SpanBased.computeCadence now s2 = Ok (s2', r2) ->
  (2 <= List.length (SpanBased.stepTimestamps s1') <=
   List.length (SpanBased.stepTimestamps s2'))%nat ->
  nth 0 (SpanBased.stepTimestamps s1') 0 =
    nth 0 (SpanBased.stepTimestamps s2') 0 ->
  nth (List.length (SpanBased.stepTimestamps s1') - 1)
      (SpanBased.stepTimestamps s1') 0 =
    nth (List.length (SpanBased.stepTimestamps s2') - 1)
      (SpanBased.stepTimestamps s2') 0 ->
  (r1 <= r2)%Q.
Proof.
  intros H1 H2 Hlen Hfirst Hlast.
  pose proof (span_computeCadence_state _ _ _ _ H1) as E1.
  pose proof (span_computeCadence_state _ _ _ _ H2) as E2.
  subst s1' s2'. cbn [SpanBased.stepTimestamps] in Hlen, Hfirst, Hlast.
  unfold SpanBased.computeCadence in H1, H2.
  change (SpanBased.windowSeconds * 1000) with (5 * 1000) in H1, H2.
  revert H1 H2 Hlen Hfirst Hlast.
  set (k1 := filter _ (SpanBased.stepTimestamps s1)).
  set (k2 := filter _ (SpanBased.stepTimestamps s2)).
  intros H1 H2 [Hlen1 Hlen2] Hfirst Hlast.
  destruct (List.length k1 =? 0)%nat eqn:E1;
    [apply Nat.eqb_eq in E1; lia|].
  destruct (List.length k2 =? 0)%nat eqn:E2;
    [apply Nat.eqb_eq in E2; lia|].
  destruct (2 <=? List.length k1)%nat eqn:L1;
    [|apply Nat.leb_gt in L1; lia].
  destruct (2 <=? List.length k2)%nat eqn:L2;
    [|apply Nat.leb_gt in L2; lia].
  rewrite <- Hfirst, <- Hlast in H2.
  rewrite !(divide_positive _ 60000) in * by reflexivity.
  cbn [bind] in H1, H2.
  destruct (Qle_bool _ 0) eqn:Ed.
  - inversion H1; inversion H2; subst. apply Qle_refl.
  - apply Qle_bool_false_iff in Ed.
    rewrite !(divide_positive _ _ Ed) in *. cbn [bind] in H1, H2.
    inversion H1; inversion H2; subst.
    unfold Qdiv. apply Qmult_le_compat_r.
    + rewrite <- Zle_Qle. lia.
    + apply Qlt_le_weak, Qinv_lt_0_compat, Ed.
Qed.

(** C8, as amended. For a fixed compute time: in the density-based
    revision the rate is non-decreasing in the number of events retained
    in the window; in the span-based revision it is non-decreasing in that
    number between windows that retain at least two events and have the
    same first and the same last retained timestamp. *)
Theorem rate_non_decreasing_in_count :
  (forall now (s1 s2 s1' s2' : DensityBased.State) (r1 r2 : Q),
      DensityBased.computeCadence now s1 = Ok (s1', r1) ->
      DensityBased.computeCadence now s2 = Ok (s2', r2) ->
      (List.length (DensityBased.stepTimestamps s1') <=
       List.length (DensityBased.stepTimestamps s2'))%nat ->
      (r1 <= r2)%Q) /\
  (forall now (s1 s2 s1' s2' : SpanBased.State) (r1 r2 : Q),
      SpanBased.computeCadence now s1 = Ok (s1', r1) ->
      SpanBased.computeCadence now s2 = Ok (s2', r2) ->
      (2 <= List.length (SpanBased.stepTimestamps s1') <=
       List.length (SpanBased.stepTimestamps s2'))%nat ->
      nth 0 (SpanBased.stepTimestamps s1') 0 =
        nth 0 (SpanBased.stepTimestamps s2') 0 ->
      nth (List.length (SpanBased.stepTimestamps s1') - 1)
          (SpanBased.stepTimestamps s1') 0 =
        nth (List.length (SpanBased.stepTimestamps s2') - 1)
          (SpanBased.stepTimestamps s2') 0 ->
      (r1 <= r2)%Q).
Proof.
  split.
  - exact density_rate_monotone.
  - exact span_rate_monotone.
Qed.

Lemma rate_non_decreasing_in_count_witness :
  (1 / 5 * 60 <= 2 / 5 * 60)%Q /\
  (1 / (2000 / 60000) <= 3 / (2000 / 60000))%Q.
Proof.
  destruct rate_non_decreasing_in_count as [Hd Hs]. split.
  - apply (Hd 2000
             (DensityBased.simulateStep 1000 DensityBased.init)
             (DensityBased.simulateStep 2000
                (DensityBased.simulateStep 1000 DensityBased.init))
             (DensityBased.simulateStep 1000 DensityBased.init)
             (DensityBased.simulateStep 2000
                (DensityBased.simulateStep 1000 DensityBased.init))).
    + vm_compute. reflexivity.
    + vm_compute. reflexivity.
    + cbn. lia.
  - apply (Hs 3000
             (SpanBased.mkState 3000 [1000; 3000] (mkVec3 0 0 0) [] []
                0%float 0 0%float Dashes SpanBased.initializing)
             (SpanBased.mkState 3000 [1000; 2000; 2500; 3000] (mkVec3 0 0 0)
                [] [] 0%float 0 0%float Dashes SpanBased.initializing)
             (SpanBased.mkState 3000 [1000; 3000] (mkVec3 0 0 0) [] []
                0%float 0 0%float Dashes SpanBased.initializing)
             (SpanBased.mkState 3000 [1000; 2000; 2500; 3000] (mkVec3 0 0 0)
                [] [] 0%float 0 0%float Dashes SpanBased.initializing)).
    + vm_compute. reflexivity.
    + vm_compute. reflexivity.
    + cbn. lia.
    + reflexivity.
    + reflexivity.
Defined.

(** C8, as stated, fails in the span-based revision: at compute time 5000
    the window [[1000; 2000]] gives 60 events per minute, and with the
    further in-window event 5000 the window [[1000; 2000; 5000]] gives 30. *)
Lemma span_rate_drops_with_later_event :
  exists s1' r1 s2' r2,
    SpanBased.computeCadence 5000
      (SpanBased.simulateStep 2000
         (SpanBased.simulateStep 1000 SpanBased.init)) = Ok (s1', r1) /\
    SpanBased.computeCadence 5000
      (SpanBased.simulateStep 5000
         (SpanBased.simulateStep 2000
            (SpanBased.simulateStep 1000 SpanBased.init))) = Ok (s2', r2) /\
    SpanBased.stepTimestamps s1' = [1000; 2000] /\
    SpanBased.stepTimestamps s2' = [1000; 2000; 5000] /\
    (r1 == 60)%Q /\
    (r2 == 30)%Q /\
    (r2 < r1)%Q.
Proof.
  eexists _, _, _, _.
  split; [vm_compute; reflexivity|].
  split; [vm_compute; reflexivity|].
  repeat split; reflexivity.
Qed.

(** * Further properties of the script *)

(** ** The history buffer *)

Lemma fifo_step {A : Type} (h : list A) (c : A) :
  (List.length h <= 60)%nat ->
  (if (60 <? List.length (h ++ [c]))%nat then tl (h ++ [c]) else h ++ [c]) =
    skipn (List.length h + 1 - 60) (h ++ [c]).
Proof.
  intro Hlen. rewrite length_app. cbn [List.length].
  destruct (Nat.ltb_spec 60 (List.length h + 1)) as [Hgt|Hle].
  - replace (List.length h + 1 - 60)%nat with 1%nat by lia.
    destruct (h ++ [c]); reflexivity.
  - replace (List.length h + 1 - 60)%nat with 0%nat by lia. reflexivity.
Qed.

Section Fifo.

Variable State : Type.
Variable hist : State -> list (option Q).
Variable push : Q -> State -> State.
Hypothesis hist_push : forall c s,
  hist (push c s) =
    if (60 <? List.length (hist s ++ [Some c]))%nat
    then tl (hist s ++ [Some c]) else hist s ++ [Some c].

Lemma fifo_pushes (cs : list Q) :
  forall s,
    (List.length (hist s) <= 60)%nat ->
    hist (fold_left (fun s c => push c s) cs s) =
      skipn (List.length (hist s) + List.length cs - 60)
        (hist s ++ map Some cs).
Proof.
  induction cs as [|c cs IH]; intros s Hlen.
  - cbn. rewrite app_nil_r.
    replace (List.length (hist s) + 0 - 60)%nat with 0%nat by lia.
    reflexivity.
  - cbn [fold_left map List.length].
    assert (Hstep : hist (push c s) =
                    skipn (List.length (hist s) + 1 - 60) (hist s ++ [Some c]))
      by (rewrite hist_push; apply fifo_step, Hlen).
    assert (Hlen' : List.length (hist (push c s)) =
                    Nat.min 60 (List.length (hist s) + 1)).
    { rewrite Hstep, length_skipn, length_app. cbn [List.length]. lia. }
    rewrite IH by lia. rewrite Hlen'.
    rewrite Hstep.
    replace (hist s ++ Some c :: map Some cs)
      with ((hist s ++ [Some c]) ++ map Some cs)
      by (rewrite <- app_assoc; reflexivity).
    set (l := hist s ++ [Some c]).
    assert (Hl : List.length l = (List.length (hist s) + 1)%nat)
      by (unfold l; rewrite length_app; reflexivity).
    set (k := (List.length (hist s) + 1 - 60)%nat).
    replace (skipn k l ++ map Some cs) with (skipn k (l ++ map Some cs)).
    + rewrite skipn_skipn. f_equal. unfold k. lia.
    + rewrite skipn_app. f_equal.
      replace (k - List.length l)%nat with 0%nat by (unfold k; lia).
      reflexivity.
Qed.

End Fifo.

(** X2. Pushing the rates [cs] one after the other onto a history of at
    most 60 slots leaves the last 60 slots of the old history followed by
    [cs], in order; once 60 or more have been pushed the history is exactly
    the last 60 pushed rates; the length is never above 60.  Both
    revisions. *)
Theorem pushHistory_keeps_last_60 :
  (forall (cs : list Q) (s : SpanBased.State),
      (List.length (SpanBased.cadenceHistory s) <= 60)%nat ->
      let s' := fold_left (fun s c => SpanBased.pushHistory c s) cs s in
      SpanBased.cadenceHistory s' =
        skipn (List.length (SpanBased.cadenceHistory s) + List.length cs - 60)
          (SpanBased.cadenceHistory s ++ map Some cs) /\
      (List.length (SpanBased.cadenceHistory s') <= 60)%nat /\
      ((60 <= List.length cs)%nat ->
       SpanBased.cadenceHistory s' =
         skipn (List.length cs - 60) (map Some cs))) /\
  (forall (cs : list Q) (s : DensityBased.State),
      (List.length (DensityBased.cadenceHistory s) <= 60)%nat ->
      let s' := fold_left (fun s c => DensityBased.pushHistory c s) cs s in
      DensityBased.cadenceHistory s' =
        skipn
          (List.length (DensityBased.cadenceHistory s) + List.length cs - 60)
          (DensityBased.cadenceHistory s ++ map Some cs) /\
      (List.length (DensityBased.cadenceHistory s') <= 60)%nat /\
      ((60 <= List.length cs)%nat ->
       DensityBased.cadenceHistory s' =
         skipn (List.length cs - 60) (map Some cs))).
Proof.
  split; intros cs s Hlen; cbv zeta.
  - pose proof (fifo_pushes SpanBased.State SpanBased.cadenceHistory
                  SpanBased.pushHistory (fun c s => eq_refl) cs s Hlen) as E.
    split; [exact E|]. rewrite E. split.
    + rewrite length_skipn, length_app, length_map. lia.
    + intro Hcs. rewrite skipn_app.
      rewrite (skipn_all2 (SpanBased.cadenceHistory s)) by lia.
      cbn [app]. f_equal. lia.
  - pose proof (fifo_pushes DensityBased.State DensityBased.cadenceHistory
                  DensityBased.pushHistory (fun c s => eq_refl) cs s Hlen) as E.
    split; [exact E|]. rewrite E. split.
    + rewrite length_skipn, length_app, length_map. lia.
    + intro Hcs. rewrite skipn_app.
      rewrite (skipn_all2 (DensityBased.cadenceHistory s)) by lia.
      cbn [app]. f_equal. lia.
Qed.

Lemma pushHistory_keeps_last_60_witness :
  SpanBased.cadenceHistory
    (fold_left (fun s c => SpanBased.pushHistory c s) [12%Q; 24%Q]
       SpanBased.init) =
    repeat None 58 ++ [Some 12%Q; Some 24%Q].
Proof.
  destruct pushHistory_keeps_last_60 as [H _].
  destruct (H [12%Q; 24%Q] SpanBased.init) as [E _].
  - cbn. lia.
  - rewrite E. reflexivity.
Defined.

(** [onStep] and [handleMotion] leave the history and the display alone. *)
Lemma span_onStep_frame (ts : Z) (s : SpanBased.State) :
  SpanBased.cadenceHistory (SpanBased.onStep ts s) =
    SpanBased.cadenceHistory s /\
  SpanBased.chartData (SpanBased.onStep ts s) = SpanBased.chartData s /\
  SpanBased.cadenceEl (SpanBased.onStep ts s) = SpanBased.cadenceEl s /\
  SpanBased.stateEl (SpanBased.onStep ts s) = SpanBased.stateEl s.
Proof.
  unfold SpanBased.onStep.
  destruct (ts - SpanBased.lastStepTs s <? _); repeat split; reflexivity.
Qed.

Lemma span_handleMotion_frame (ev : DeviceMotionEvent) (now : Z)
  (s : SpanBased.State) :
  SpanBased.cadenceHistory (SpanBased.handleMotion ev now s) =
    SpanBased.cadenceHistory s /\
  SpanBased.chartData (SpanBased.handleMotion ev now s) =
    SpanBased.chartData s /\
  SpanBased.cadenceEl (SpanBased.handleMotion ev now s) =
    SpanBased.cadenceEl s /\
  SpanBased.stateEl (SpanBased.handleMotion ev now s) = SpanBased.stateEl s.
Proof.
  unfold SpanBased.handleMotion.
  destruct (accelerationIncludingGravity ev) as [a|];
    [|repeat split; reflexivity].
  cbv zeta.
  match goal with |- context [if ?c then _ else _] => destruct c end;
    [|repeat split; reflexivity].
  match goal with |- context [SpanBased.onStep now ?t] =>
    pose proof (span_onStep_frame now t) as H;
    destruct (SpanBased.onStep now t) end.
  exact H.
Qed.

Lemma density_onStep_frame (ts : Z) (s : DensityBased.State) :
  DensityBased.cadenceHistory (DensityBased.onStep ts s) =
    DensityBased.cadenceHistory s /\
  DensityBased.chartData (DensityBased.onStep ts s) =
    DensityBased.chartData s /\
  DensityBased.cadenceEl (DensityBased.onStep ts s) =
    DensityBased.cadenceEl s /\
  DensityBased.stateEl (DensityBased.onStep ts s) = DensityBased.stateEl s.
Proof.
  unfold DensityBased.onStep.
  destruct (ts - DensityBased.lastStepTs s <? _); repeat split; reflexivity.
Qed.

Lemma density_handleMotion_frame (ev : DeviceMotionEvent) (now : Z)
  (s : DensityBased.State) :
  DensityBased.cadenceHistory (DensityBased.handleMotion ev now s) =
    DensityBased.cadenceHistory s /\
  DensityBased.chartData (DensityBased.handleMotion ev now s) =
    DensityBased.chartData s /\
  DensityBased.cadenceEl (DensityBased.handleMotion ev now s) =
    DensityBased.cadenceEl s /\
  DensityBased.stateEl (DensityBased.handleMotion ev now s) =
    DensityBased.stateEl s.
Proof.
  unfold DensityBased.handleMotion.
  destruct (accelerationIncludingGravity ev) as [a|];
    [|repeat split; reflexivity].
  cbv zeta.
  match goal with |- context [if ?c then _ else _] => destruct c end;
    [|repeat split; reflexivity].
  match goal with |- context [DensityBased.onStep now ?t] =>
    pose proof (density_onStep_frame now t) as H;
    destruct (DensityBased.onStep now t) end.
  exact H.
Qed.

Lemma full_after_push {A : Type} (h : list A) (c : A) :
  List.length h = 60%nat ->
  List.length
    (if (60 <? List.length (h ++ [c]))%nat then tl (h ++ [c]) else h ++ [c])
    = 60%nat.
Proof.
  intro H. rewrite fifo_step by lia.
  rewrite length_skipn, length_app. cbn [List.length]. lia.
Qed.

Lemma span_history_step (c : Callback) (s s' : SpanBased.State) :
  SpanBased.step c s = Ok s' ->
  List.length (SpanBased.cadenceHistory s) = 60%nat /\
  SpanBased.chartData s = SpanBased.cadenceHistory s ->
  List.length (SpanBased.cadenceHistory s') = 60%nat /\
  SpanBased.chartData s' = SpanBased.cadenceHistory s'.
Proof.
  intros Hstep [Hlen Hchart].
  destruct c as [ev now|now| |now]; cbn [SpanBased.step] in Hstep.
  - inversion Hstep; subst s'.
    destruct (span_handleMotion_frame ev now s) as [-> [-> _]]. tauto.
  - inversion Hstep; subst s'. unfold SpanBased.simulateStep.
    destruct (span_onStep_frame now s) as [-> [-> _]]. tauto.
  - inversion Hstep; subst s'. split; reflexivity.
  - unfold SpanBased.tick in Hstep.
    destruct (SpanBased.computeCadence now s) as [[s1 r]|] eqn:Hc;
      cbn [bind] in Hstep; [|discriminate].
    inversion Hstep; subst s'.
    apply span_computeCadence_state in Hc. subst s1.
    cbn [SpanBased.pushHistory SpanBased.updateUI SpanBased.cadenceHistory
         SpanBased.chartData].
    split; [apply full_after_push, Hlen|reflexivity].
Qed.

Lemma density_history_step (c : Callback) (s s' : DensityBased.State) :
  DensityBased.step c s = Ok s' ->
  List.length (DensityBased.cadenceHistory s) = 60%nat /\
  DensityBased.chartData s = DensityBased.cadenceHistory s ->
  List.length (DensityBased.cadenceHistory s') = 60%nat /\
  DensityBased.chartData s' = DensityBased.cadenceHistory s'.
Proof.
  intros Hstep [Hlen Hchart].
  destruct c as [ev now|now| |now]; cbn [DensityBased.step] in Hstep.
  - inversion Hstep; subst s'.
    destruct (density_handleMotion_frame ev now s) as [-> [-> _]]. tauto.
  - inversion Hstep; subst s'. unfold DensityBased.simulateStep.
    destruct (density_onStep_frame now s) as [-> [-> _]]. tauto.
  - inversion Hstep; subst s'. split; reflexivity.
  - unfold DensityBased.tick in Hstep.
    destruct (DensityBased.computeCadence now s) as [[s1 r]|] eqn:Hc;
      cbn [bind] in Hstep; [|discriminate].
    inversion Hstep; subst s'.
    apply density_computeCadence_state in Hc. subst s1.
    cbn [DensityBased.pushHistory DensityBased.updateUI
         DensityBased.cadenceHistory DensityBased.chartData].
    split; [apply full_after_push, Hlen|reflexivity].
Qed.

(** X1. In every state a run of callbacks reaches from the initial state,
    in both revisions, the history holds exactly 60 slots, as many as the
    chart has labels, and the chart's data is the history. *)
Theorem history_always_60_slots (trace : list Callback) :
  (exists s,
      SpanBased.run trace SpanBased.init = Ok s /\
      List.length (SpanBased.cadenceHistory s) = 60%nat /\
      List.length SpanBased.times = List.length (SpanBased.cadenceHistory s) /\
      SpanBased.chartData s = SpanBased.cadenceHistory s) /\
  (exists s,
      DensityBased.run trace DensityBased.init = Ok s /\
      List.length (DensityBased.cadenceHistory s) = 60%nat /\
      List.length DensityBased.times =
        List.length (DensityBased.cadenceHistory s) /\
      DensityBased.chartData s = DensityBased.cadenceHistory s).
Proof.
  split.
  - assert (G : forall s0 s,
               SpanBased.run trace s0 = Ok s ->
               List.length (SpanBased.cadenceHistory s0) = 60%nat /\
               SpanBased.chartData s0 = SpanBased.cadenceHistory s0 ->
               List.length (SpanBased.cadenceHistory s) = 60%nat /\
               SpanBased.chartData s = SpanBased.cadenceHistory s).
    { induction trace as [|c rest IH]; intros s0 s Hrun H0;
        cbn [SpanBased.run] in Hrun.
      - inversion Hrun; subst; exact H0.
      - destruct (SpanBased.step c s0) as [s1|] eqn:Hs;
          cbn [bind] in Hrun; [|discriminate].
        apply (IH s1 s Hrun). apply (span_history_step c s0 s1 Hs H0). }
    destruct (span_run_ok trace SpanBased.init) as [s [Hrun _]];
      [apply window_ok_empty|].
    exists s. split; [exact Hrun|].
    destruct (G SpanBased.init s Hrun) as [Hlen Hchart];
      [split; reflexivity|].
    rewrite Hlen. split; [reflexivity|split; [reflexivity|exact Hchart]].
  - assert (G : forall s0 s,
               DensityBased.run trace s0 = Ok s ->
               List.length (DensityBased.cadenceHistory s0) = 60%nat /\
               DensityBased.chartData s0 = DensityBased.cadenceHistory s0 ->
               List.length (DensityBased.cadenceHistory s) = 60%nat /\
               DensityBased.chartData s = DensityBased.cadenceHistory s).
    { induction trace as [|c rest IH]; intros s0 s Hrun H0;
        cbn [DensityBased.run] in Hrun.
      - inversion Hrun; subst; exact H0.
      - destruct (DensityBased.step c s0) as [s1|] eqn:Hs;
          cbn [bind] in Hrun; [|discriminate].
        apply (IH s1 s Hrun). apply (density_history_step c s0 s1 Hs H0). }
    destruct (density_run_ok trace DensityBased.init) as [s [Hrun _]];
      [apply window_ok_empty|].
    exists s. split; [exact Hrun|].
    destruct (G DensityBased.init s Hrun) as [Hlen Hchart];
      [split; reflexivity|].
    rewrite Hlen. split; [reflexivity|split; [reflexivity|exact Hchart]].
Qed.

(** ** Sequences of injections *)

Lemma last_cons_default (l : list Z) :
  forall a d, last (a :: l) d = last l a.
Proof.
  induction l as [|b l IH]; intros a d; [reflexivity|].
  change (last (a :: b :: l) d) with (last (b :: l) d).
  rewrite (IH b d), (IH b a). reflexivity.
Qed.

Lemma span_injections_accepted (ts : list Z) :
  forall s,
    spaced 300 (SpanBased.lastStepTs s :: ts) ->
    let s' := fold_left (fun s t => SpanBased.simulateStep t s) ts s in
    SpanBased.stepTimestamps s' = SpanBased.stepTimestamps s ++ ts /\
    SpanBased.lastStepTs s' = last ts (SpanBased.lastStepTs s).
Proof.
  induction ts as [|t rest IH]; intros s H; cbv zeta.
  - cbn. rewrite app_nil_r. split; reflexivity.
  - cbn [fold_left].
    change (SpanBased.simulateStep t s) with (SpanBased.onStep t s).
    assert (Ht : SpanBased.lastStepTs s + 300 <= t) by apply H.
    rewrite (span_onStep_accept t s Ht).
    match goal with |- context [fold_left _ rest ?s1] =>
      destruct (IH s1) as [E1 E2] end.
    { cbn [SpanBased.lastStepTs]. exact (spaced_tail 300 _ _ H). }
    cbv zeta in E1, E2. rewrite E1, E2.
    cbn [SpanBased.stepTimestamps SpanBased.lastStepTs].
    rewrite <- app_assoc. split; [reflexivity|].
    symmetry. apply last_cons_default.
Qed.

Lemma density_injections_accepted (ts : list Z) :
  forall s,
    spaced 250 (DensityBased.lastStepTs s :: ts) ->
    let s' := fold_left (fun s t => DensityBased.simulateStep t s) ts s in
    DensityBased.stepTimestamps s' = DensityBased.stepTimestamps s ++ ts /\
    DensityBased.lastStepTs s' = last ts (DensityBased.lastStepTs s).
Proof.
  induction ts as [|t rest IH]; intros s H; cbv zeta.
  - cbn. rewrite app_nil_r. split; reflexivity.
  - cbn [fold_left].
    change (DensityBased.simulateStep t s) with (DensityBased.onStep t s).
    assert (Ht : DensityBased.lastStepTs s + 250 <= t) by apply H.
    rewrite (density_onStep_accept t s Ht).
    match goal with |- context [fold_left _ rest ?s1] =>
      destruct (IH s1) as [E1 E2] end.
    { cbn [DensityBased.lastStepTs]. exact (spaced_tail 250 _ _ H). }
    cbv zeta in E1, E2. rewrite E1, E2.
    cbn [DensityBased.stepTimestamps DensityBased.lastStepTs].
    rewrite <- app_assoc. split; [reflexivity|].
    symmetry. apply last_cons_default.
Qed.

(** X3. Injections that come at least the refractory interval apart, the
    first of them at least that long after [lastStepTs], are all accepted:
    the window grows by exactly these timestamps, in order, and
    [lastStepTs] becomes the last of them.  The interval is 300 ms in the
    span-based revision and 250 ms in the density-based one; a gap of
    exactly the interval is enough. *)
Theorem spaced_injections_all_accepted (ts : list Z) :
  (forall s : SpanBased.State,
      spaced SpanBased.MIN_STEP_INTERVAL (SpanBased.lastStepTs s :: ts) ->
      SpanBased.stepTimestamps
        (fold_left (fun s t => SpanBased.simulateStep t s) ts s) =
        SpanBased.stepTimestamps s ++ ts /\
      SpanBased.lastStepTs
        (fold_left (fun s t => SpanBased.simulateStep t s) ts s) =
        last ts (SpanBased.lastStepTs s)) /\
  (forall s : DensityBased.State,
      spaced DensityBased.MIN_STEP_INTERVAL
        (DensityBased.lastStepTs s :: ts) ->
      DensityBased.stepTimestamps
        (fold_left (fun s t => DensityBased.simulateStep t s) ts s) =
        DensityBased.stepTimestamps s ++ ts /\
      DensityBased.lastStepTs
        (fold_left (fun s t => DensityBased.simulateStep t s) ts s) =
        last ts (DensityBased.lastStepTs s)).
Proof.
  split; intros s H.
  - exact (span_injections_accepted ts s H).
  - exact (density_injections_accepted ts s H).
Qed.

Lemma spaced_injections_all_accepted_witness :
  SpanBased.stepTimestamps
    (fold_left (fun s t => SpanBased.simulateStep t s) [300; 600; 1000]
       SpanBased.init) = [300; 600; 1000] /\
  DensityBased.stepTimestamps
    (fold_left (fun s t => DensityBased.simulateStep t s) [250; 500; 1000]
       DensityBased.init) = [250; 500; 1000].
Proof.
  split.
  - destruct (spaced_injections_all_accepted [300; 600; 1000]) as [H _].
    destruct (H SpanBased.init) as [E _]; [|exact E].
    unfold SpanBased.MIN_STEP_INTERVAL. cbn. lia.
  - destruct (spaced_injections_all_accepted [250; 500; 1000]) as [_ H].
    destruct (H DensityBased.init) as [E _]; [|exact E].
    unfold DensityBased.MIN_STEP_INTERVAL. cbn. lia.
Defined.

(** X4. Injections that all come less than the refractory interval after
    [lastStepTs] are all rejected, however many there are: the state is
    left as it was. Since [lastStepTs] starts at 0, this includes every
    injection at a clock reading below the interval. *)
Theorem burst_of_injections_rejected (ts : list Z) :
  (forall s : SpanBased.State,
      Forall (fun t => t - SpanBased.lastStepTs s
                       < SpanBased.MIN_STEP_INTERVAL) ts ->
      fold_left (fun s t => SpanBased.simulateStep t s) ts s = s) /\
  (forall s : DensityBased.State,
      Forall (fun t => t - DensityBased.lastStepTs s
                       < DensityBased.MIN_STEP_INTERVAL) ts ->
      fold_left (fun s t => DensityBased.simulateStep t s) ts s = s).
Proof.
  split; intros s H.
  - induction H as [|t rest Ht Hrest IH]; [reflexivity|].
    cbn [fold_left].
    change (SpanBased.simulateStep t s) with (SpanBased.onStep t s).
    rewrite (span_onStep_reject t s Ht). exact IH.
  - induction H as [|t rest Ht Hrest IH]; [reflexivity|].
    cbn [fold_left].
    change (DensityBased.simulateStep t s) with (DensityBased.onStep t s).
    rewrite (density_onStep_reject t s Ht). exact IH.
Qed.

Lemma burst_of_injections_rejected_witness :
  fold_left (fun s t => DensityBased.simulateStep t s) [1100; 1249; 1001]
    (DensityBased.simulateStep 1000 DensityBased.init) =
  DensityBased.simulateStep 1000 DensityBased.init.
Proof.
  destruct (burst_of_injections_rejected [1100; 1249; 1001]) as [_ H].
  apply H. unfold DensityBased.MIN_STEP_INTERVAL. cbn.
  repeat constructor; lia.
Defined.

(** ** Bounds on the rate *)

Lemma span_rate_nonneg (now : Z) (s s' : SpanBased.State) (r : Q) :
  SpanBased.computeCadence now s = Ok (s', r) -> (0 <= r)%Q.
Proof.
  unfold SpanBased.computeCadence.
  set (kept := filter _ _).
  destruct (List.length kept =? 0)%nat;
    [intro H; inversion H; apply Qle_refl|].
  destruct (2 <=? List.length kept)%nat eqn:E2.
  - apply Nat.leb_le in E2.
    rewrite (divide_positive _ 60000) by reflexivity. cbn [bind].
    destruct (Qle_bool _ 0) eqn:Ed; [intro H; inversion H; apply Qle_refl|].
    apply Qle_bool_false_iff in Ed.
    rewrite (divide_positive _ _ Ed). cbn [bind].
    intro H; inversion H; subst.
    apply Qle_shift_div_l; [exact Ed|].
    rewrite Qmult_0_l. change 0%Q with (inject_Z 0).
    rewrite <- Zle_Qle. lia.
  - rewrite (divide_positive _ (inject_Z SpanBased.windowSeconds))
      by reflexivity.
    cbn [bind]. intro H; inversion H; subst.
    apply per_minute_nonneg. change 0%Q with (inject_Z 0).
    rewrite <- Zle_Qle. lia.
Qed.

Lemma density_rate_closed_form (now : Z) (s s' : DensityBased.State)
  (r : Q) :
  DensityBased.computeCadence now s = Ok (s', r) ->
  (r == inject_Z
          (12 * Z.of_nat (List.length (DensityBased.stepTimestamps s'))))%Q.
Proof.
  intro H. pose proof (density_computeCadence_state _ _ _ _ H) as E.
  subst s'. cbn [DensityBased.stepTimestamps].
  revert H. unfold DensityBased.computeCadence.
  change (DensityBased.windowSeconds * 1000) with (5 * 1000).
  set (kept := filter _ _).
  destruct (List.length kept =? 0)%nat eqn:E0.
  - apply Nat.eqb_eq in E0. rewrite E0. intro H; inversion H. reflexivity.
  - rewrite (divide_positive _ (inject_Z DensityBased.windowSeconds))
      by reflexivity.
    cbn [bind]. intro H; inversion H; subst.
    rewrite inject_Z_mult.
    change (inject_Z DensityBased.windowSeconds) with 5%Q.
    change (inject_Z 12) with 12%Q. field.
Qed.

(** X5. Whatever the window holds, in whatever order, and whatever the
    time, the rate [computeCadence] returns is never negative, in both
    revisions. *)
Theorem rate_never_negative :
  (forall now (s s' : SpanBased.State) (r : Q),
      SpanBased.computeCadence now s = Ok (s', r) -> (0 <= r)%Q) /\
  (forall now (s s' : DensityBased.State) (r : Q),
      DensityBased.computeCadence now s = Ok (s', r) -> (0 <= r)%Q).
Proof.
  split.
  - exact span_rate_nonneg.
  - intros now s s' r H.
    rewrite (density_rate_closed_form now s s' r H).
    change 0%Q with (inject_Z 0). rewrite <- Zle_Qle. lia.
Qed.

Lemma rate_never_negative_witness :
  (0 <= 1 / (1700 / 60000))%Q.
Proof.
  destruct rate_never_negative as [H _].
  apply (H 2000
           (SpanBased.simulateStep 2000
              (SpanBased.simulateStep 300 SpanBased.init))
           (SpanBased.simulateStep 2000
              (SpanBased.simulateStep 300 SpanBased.init))).
  vm_compute. reflexivity.
Defined.

Lemma spaced_total_span_cons (gap : Z) (l : list Z) :
  forall a,
    spaced gap (a :: l) ->
    a + Z.of_nat (List.length l) * gap <= nth (List.length l) (a :: l) 0.
Proof.
  induction l as [|b l IH]; intros a H.
  - cbn. lia.
  - destruct H as [Hab Hl]. specialize (IH b Hl).
    change (nth (List.length (b :: l)) (a :: b :: l) 0)
      with (nth (List.length l) (b :: l) 0).
    cbn [List.length]. rewrite Nat2Z.inj_succ. lia.
Qed.

(** In a spaced window the last entry is at least [count - 1] gaps after
    the first. *)
Lemma spaced_total_span (gap : Z) (l : list Z) :
  (1 <= List.length l)%nat ->
  spaced gap l ->
  nth 0 l 0 + (Z.of_nat (List.length l) - 1) * gap
    <= nth (List.length l - 1) l 0.
Proof.
  intros Hlen H. destruct l as [|a l]; [cbn in Hlen; lia|].
  pose proof (spaced_total_span_cons gap l a H) as Hs.
  change (List.length (a :: l)) with (S (List.length l)).
  rewrite Nat.sub_succ, Nat.sub_0_r, Nat2Z.inj_succ.
  replace (Z.succ (Z.of_nat (List.length l)) - 1)
    with (Z.of_nat (List.length l)) by lia.
  change (nth 0 (a :: l) 0) with a. exact Hs.
Qed.

Lemma span_rate_bounds (now : Z) (s s' : SpanBased.State) (r : Q) :
  SpanBased.window_invariant s ->
  SpanBased.computeCadence now s = Ok (s', r) ->
  (r <= 200)%Q /\ (SpanBased.stepTimestamps s' <> [] -> (0 < r)%Q).
Proof.
  intros Hinv H.
  pose proof (span_computeCadence_state _ _ _ _ H) as E. subst s'.
  cbn [SpanBased.stepTimestamps].
  assert (Hsp : spaced 300
                  (filter (fun ts => now - 5 * 1000 <=? ts)
                     (SpanBased.stepTimestamps s)))
    by (apply spaced_filter; [discriminate|apply Hinv]).
  revert H Hsp. unfold SpanBased.computeCadence.
  change (SpanBased.windowSeconds * 1000) with (5 * 1000).
  set (kept := filter _ _). intros H Hsp.
  destruct (List.length kept =? 0)%nat eqn:E0.
  - apply Nat.eqb_eq in E0. inversion H; subst. split; [discriminate|].
    intro Hne. destruct kept; [contradiction|discriminate].
  - apply Nat.eqb_neq in E0.
    destruct (2 <=? List.length kept)%nat eqn:E2.
    + apply Nat.leb_le in E2.
      pose proof (spaced_total_span 300 kept ltac:(lia) Hsp) as Hspan.
      set (c := Z.of_nat (List.length kept)) in *.
      set (d := nth (List.length kept - 1) kept 0 - nth 0 kept 0) in *.
      assert (Hc : 1 <= c - 1) by (unfold c; lia).
      assert (Hd : (c - 1) * 300 <= d) by (unfold d; lia).
      assert (HdQ : (0 < inject_Z d)%Q)
        by (change 0%Q with (inject_Z 0); rewrite <- Zlt_Qlt; lia).
      assert (HcQ : (0 < inject_Z (c - 1))%Q)
        by (change 0%Q with (inject_Z 0); rewrite <- Zlt_Qlt; lia).
      assert (HcdQ : (inject_Z (c - 1) * 300 <= inject_Z d)%Q).
      { change 300%Q with (inject_Z 300).
        rewrite <- inject_Z_mult, <- Zle_Qle. exact Hd. }
      assert (Hmin : (0 < inject_Z d / 60000)%Q)
        by (apply Qlt_shift_div_l; [reflexivity|lra]).
      rewrite (divide_positive _ 60000) in H by reflexivity.
      cbn [bind] in H.
      rewrite (proj2 (Qle_bool_false_iff _ _) Hmin) in H.
      rewrite (divide_positive _ _ Hmin) in H. cbn [bind] in H.
      inversion H; subst. split.
      * apply Qle_shift_div_r; [exact Hmin|].
        setoid_replace (200 * (inject_Z d / 60000))%Q
          with (inject_Z d * (1 # 300))%Q by field.
        lra.
      * intros _. apply Qlt_shift_div_l; [exact Hmin|]. lra.
    + apply Nat.leb_gt in E2.
      assert (E1 : List.length kept = 1%nat) by lia.
      rewrite E1 in H.
      rewrite (divide_positive _ (inject_Z SpanBased.windowSeconds)) in H
        by reflexivity.
      cbn [bind] in H. inversion H; subst.
      split; [apply Qle_bool_iff; reflexivity|intros _; reflexivity].
Qed.

Lemma Math_round_between (r : Q) (lo hi : Z) :
  (inject_Z lo <= r)%Q -> (r <= inject_Z hi)%Q ->
  lo <= Math_round r <= hi.
Proof.
  intros Hlo Hhi. unfold Math_round.
  pose proof (Qfloor_le (r + (1 # 2))) as Hfl.
  pose proof (Qlt_floor (r + (1 # 2))) as Hlt.
  rewrite inject_Z_plus in Hlt. change (inject_Z 1) with 1%Q in Hlt.
  split.
  - assert (H : (inject_Z lo < inject_Z (Qfloor (r + (1 # 2)) + 1))%Q)
      by (rewrite inject_Z_plus; change (inject_Z 1) with 1%Q; lra).
    rewrite <- Zlt_Qlt in H. lia.
  - assert (H : (inject_Z (Qfloor (r + (1 # 2))) < inject_Z (hi + 1))%Q)
      by (rewrite inject_Z_plus; change (inject_Z 1) with 1%Q; lra).
    rewrite <- Zlt_Qlt in H. lia.
Qed.

(** X6. In the span-based revision, in every state a run reaches from the
    initial state, whatever the clock does, a tick at any time shows a
    whole number between 0 and 200 (60000 over the 300 ms refractory
    interval), and the rate it computes is 0 exactly when no event is
    retained: two retained events are never at the same instant, so the
    zero-span guard is not what returns 0 there. *)
Theorem span_display_between_0_and_200 (trace : list Callback) (now : Z) :
  exists s s1 r s',
    SpanBased.run trace SpanBased.init = Ok s /\
    SpanBased.computeCadence now s = Ok (s1, r) /\
    SpanBased.tick now s = Ok s' /\
    SpanBased.cadenceEl s' = Rounded (Math_round r) /\
    0 <= Math_round r <= 200 /\
    (0 <= r)%Q /\
    ((r == 0)%Q <-> SpanBased.stepTimestamps s1 = []).
Proof.
  destruct (span_run_ok trace SpanBased.init) as [s [Hrun Hinv]];
    [apply window_ok_empty|].
  destruct (span_computeCadence_total now s) as [s1 [r [Hc [_ Hzero]]]].
  destruct (span_rate_bounds now s s1 r Hinv Hc) as [Hle Hpos].
  pose proof (span_rate_nonneg now s s1 r Hc) as Hnn.
  exists s, s1, r,
    (SpanBased.pushHistory r (SpanBased.updateUI (Some r) s1)).
  split; [exact Hrun|]. split; [exact Hc|].
  split; [unfold SpanBased.tick; rewrite Hc; reflexivity|].
  split; [reflexivity|].
  split; [apply Math_round_between; assumption|].
  split; [exact Hnn|].
  split; [|exact Hzero].
  intro Hr. destruct (SpanBased.stepTimestamps s1) as [|t l] eqn:E;
    [reflexivity|].
  exfalso. assert (Hp : (0 < r)%Q) by (apply Hpos; discriminate).
  rewrite Hr in Hp. exact (Qlt_irrefl 0 Hp).
Qed.

(** ** Where the window's entries come from *)

Lemma span_onStep_provenance (ts : Z) (s : SpanBased.State) :
  (SpanBased.stepTimestamps (SpanBased.onStep ts s) =
     SpanBased.stepTimestamps s \/
   SpanBased.stepTimestamps (SpanBased.onStep ts s) =
     SpanBased.stepTimestamps s ++ [ts]) /\
  SpanBased.lastStepTs s <= SpanBased.lastStepTs (SpanBased.onStep ts s).
Proof.
  unfold SpanBased.onStep, SpanBased.MIN_STEP_INTERVAL.
  destruct (Z.ltb_spec (ts - SpanBased.lastStepTs s) 300).
  - split; [left; reflexivity|lia].
  - cbn [SpanBased.stepTimestamps SpanBased.lastStepTs].
    split; [right; reflexivity|lia].
Qed.

Lemma span_handleMotion_provenance (ev : DeviceMotionEvent) (now : Z)
  (s : SpanBased.State) :
  (SpanBased.stepTimestamps (SpanBased.handleMotion ev now s) =
     SpanBased.stepTimestamps s \/
   SpanBased.stepTimestamps (SpanBased.handleMotion ev now s) =
     SpanBased.stepTimestamps s ++ [now]) /\
  SpanBased.lastStepTs s <=
    SpanBased.lastStepTs (SpanBased.handleMotion ev now s).
Proof.
  unfold SpanBased.handleMotion.
  destruct (accelerationIncludingGravity ev) as [a|];
    [|split; [left; reflexivity|lia]].
  cbv zeta.
  match goal with |- context [if ?c then _ else _] => destruct c end;
    [|split; [left; reflexivity|cbn; lia]].
  match goal with |- context [SpanBased.onStep now ?t] =>
    pose proof (span_onStep_provenance now t) as H;
    destruct (SpanBased.onStep now t) end.
  exact H.
Qed.

Lemma density_onStep_provenance (ts : Z) (s : DensityBased.State) :
  (DensityBased.stepTimestamps (DensityBased.onStep ts s) =
     DensityBased.stepTimestamps s \/
   DensityBased.stepTimestamps (DensityBased.onStep ts s) =
     DensityBased.stepTimestamps s ++ [ts]) /\
  DensityBased.lastStepTs s <=
    DensityBased.lastStepTs (DensityBased.onStep ts s).
Proof.
  unfold DensityBased.onStep, DensityBased.MIN_STEP_INTERVAL.
  destruct (Z.ltb_spec (ts - DensityBased.lastStepTs s) 250).
  - split; [left; reflexivity|lia].
  - cbn [DensityBased.stepTimestamps DensityBased.lastStepTs].
    split; [right; reflexivity|lia].
Qed.

Lemma density_handleMotion_provenance (ev : DeviceMotionEvent) (now : Z)
  (s : DensityBased.State) :
  (DensityBased.stepTimestamps (DensityBased.handleMotion ev now s) =
     DensityBased.stepTimestamps s \/
   DensityBased.stepTimestamps (DensityBased.handleMotion ev now s) =
     DensityBased.stepTimestamps s ++ [now]) /\
  DensityBased.lastStepTs s <=
    DensityBased.lastStepTs (DensityBased.handleMotion ev now s).
Proof.
  unfold DensityBased.handleMotion.
  destruct (accelerationIncludingGravity ev) as [a|];
    [|split; [left; reflexivity|lia]].
  cbv zeta.
  match goal with |- context [if ?c then _ else _] => destruct c end;
    [|split; [left; reflexivity|cbn; lia]].
  match goal with |- context [DensityBased.onStep now ?t] =>
    pose proof (density_onStep_provenance now t) as H;
    destruct (DensityBased.onStep now t) end.
  exact H.
Qed.

Lemma span_step_provenance (c : Callback) (s s' : SpanBased.State) :
  SpanBased.step c s = Ok s' ->
  (forall t, In t (SpanBased.stepTimestamps s') ->
             In t (SpanBased.stepTimestamps s) \/ In t (step_readings [c])) /\
  SpanBased.lastStepTs s <= SpanBased.lastStepTs s'.
Proof.
  intro Hstep.
  destruct c as [ev now|now| |now]; cbn [SpanBased.step] in Hstep.
  - inversion Hstep; subst s'.
    destruct (span_handleMotion_provenance ev now s) as [[E|E] Hl];
      rewrite E; (split; [|exact Hl]); intros t Ht.
    + left; exact Ht.
    + apply in_app_or in Ht. destruct Ht as [Ht|Ht]; [left|right]; exact Ht.
  - inversion Hstep; subst s'. unfold SpanBased.simulateStep.
    destruct (span_onStep_provenance now s) as [[E|E] Hl];
      rewrite E; (split; [|exact Hl]); intros t Ht.
    + left; exact Ht.
    + apply in_app_or in Ht. destruct Ht as [Ht|Ht]; [left|right]; exact Ht.
  - inversion Hstep; subst s'. split; [intros t []|cbn; lia].
  - unfold SpanBased.tick in Hstep.
    destruct (SpanBased.computeCadence now s) as [[s1 r]|] eqn:Hc;
      cbn [bind] in Hstep; [|discriminate].
    inversion Hstep; subst s'.
    apply span_computeCadence_state in Hc. subst s1.
    cbn [SpanBased.pushHistory SpanBased.updateUI SpanBased.stepTimestamps
         SpanBased.lastStepTs].
    split; [|lia]. intros t Ht. apply filter_In in Ht. left. apply Ht.
Qed.

Lemma density_step_provenance (c : Callback) (s s' : DensityBased.State) :
  DensityBased.step c s = Ok s' ->
  (forall t, In t (DensityBased.stepTimestamps s') ->
             In t (DensityBased.stepTimestamps s) \/
             In t (step_readings [c])) /\
  DensityBased.lastStepTs s <= DensityBased.lastStepTs s'.
Proof.
  intro Hstep.
  destruct c as [ev now|now| |now]; cbn [DensityBased.step] in Hstep.
  - inversion Hstep; subst s'.
    destruct (density_handleMotion_provenance ev now s) as [[E|E] Hl];
      rewrite E; (split; [|exact Hl]); intros t Ht.
    + left; exact Ht.
    + apply in_app_or in Ht. destruct Ht as [Ht|Ht]; [left|right]; exact Ht.
  - inversion Hstep; subst s'. unfold DensityBased.simulateStep.
    destruct (density_onStep_provenance now s) as [[E|E] Hl];
      rewrite E; (split; [|exact Hl]); intros t Ht.
    + left; exact Ht.
    + apply in_app_or in Ht. destruct Ht as [Ht|Ht]; [left|right]; exact Ht.
  - inversion Hstep; subst s'. split; [intros t []|cbn; lia].
  - unfold DensityBased.tick in Hstep.
    destruct (DensityBased.computeCadence now s) as [[s1 r]|] eqn:Hc;
      cbn [bind] in Hstep; [|discriminate].
    inversion Hstep; subst s'.
    apply density_computeCadence_state in Hc. subst s1.
    cbn [DensityBased.pushHistory DensityBased.updateUI
         DensityBased.stepTimestamps DensityBased.lastStepTs].
    split; [|lia]. intros t Ht. apply filter_In in Ht. left. apply Ht.
Qed.

Lemma span_run_provenance (trace : list Callback) :
  forall s0 s,
    SpanBased.run trace s0 = Ok s ->
    (forall t, In t (SpanBased.stepTimestamps s) ->
               In t (SpanBased.stepTimestamps s0) \/
               In t (step_readings trace)) /\
    SpanBased.lastStepTs s0 <= SpanBased.lastStepTs s.
Proof.
  induction trace as [|c rest IH]; intros s0 s Hrun;
    cbn [SpanBased.run] in Hrun.
  - inversion Hrun; subst. split; [intros t Ht; left; exact Ht|lia].
  - destruct (SpanBased.step c s0) as [s1|] eqn:Hs;
      cbn [bind] in Hrun; [|discriminate].
    destruct (span_step_provenance c s0 s1 Hs) as [H1 L1].
    destruct (IH s1 s Hrun) as [H2 L2]. split; [|lia].
    intros t Ht. change (c :: rest) with ([c] ++ rest).
    unfold step_readings. rewrite flat_map_app.
    destruct (H2 t Ht) as [Hin|Hin].
    + destruct (H1 t Hin) as [Hin'|Hin']; [left; exact Hin'|].
      right. apply in_or_app. left. exact Hin'.
    + right. apply in_or_app. right. exact Hin.
Qed.

Lemma density_run_provenance (trace : list Callback) :
  forall s0 s,
    DensityBased.run trace s0 = Ok s ->
    (forall t, In t (DensityBased.stepTimestamps s) ->
               In t (DensityBased.stepTimestamps s0) \/
               In t (step_readings trace)) /\
    DensityBased.lastStepTs s0 <= DensityBased.lastStepTs s.
Proof.
  induction trace as [|c rest IH]; intros s0 s Hrun;
    cbn [DensityBased.run] in Hrun.
  - inversion Hrun; subst. split; [intros t Ht; left; exact Ht|lia].
  - destruct (DensityBased.step c s0) as [s1|] eqn:Hs;
      cbn [bind] in Hrun; [|discriminate].
    destruct (density_step_provenance c s0 s1 Hs) as [H1 L1].
    destruct (IH s1 s Hrun) as [H2 L2]. split; [|lia].
    intros t Ht. change (c :: rest) with ([c] ++ rest).
    unfold step_readings. rewrite flat_map_app.
    destruct (H2 t Ht) as [Hin|Hin].
    + destruct (H1 t Hin) as [Hin'|Hin']; [left; exact Hin'|].
      right. apply in_or_app. left. exact Hin'.
    + right. apply in_or_app. right. exact Hin.
Qed.

Lemma span_run_app (t1 t2 : list Callback) :
  forall s,
    SpanBased.run (t1 ++ t2) s =
      (s1 <- SpanBased.run t1 s ;; SpanBased.run t2 s1).
Proof.
  induction t1 as [|c rest IH]; intro s; [reflexivity|].
  cbn [app SpanBased.run].
  destruct (SpanBased.step c s) as [s1|]; cbn [bind]; [apply IH|reflexivity].
Qed.

Lemma density_run_app (t1 t2 : list Callback) :
  forall s,
    DensityBased.run (t1 ++ t2) s =
      (s1 <- DensityBased.run t1 s ;; DensityBased.run t2 s1).
Proof.
  induction t1 as [|c rest IH]; intro s; [reflexivity|].
  cbn [app DensityBased.run].
  destruct (DensityBased.step c s) as [s1|]; cbn [bind];
    [apply IH|reflexivity].
Qed.

(** X7. Along any run from the initial state, continued by any further
    callbacks, in both revisions: every entry of the window is the clock
    reading of a motion or simulate callback of the run (ticks and resets
    add none), and [lastStepTs] never moves back, whatever the clock
    does. *)
Theorem window_entries_come_from_the_run (t1 t2 : list Callback) :
  (exists s1 s2,
      SpanBased.run t1 SpanBased.init = Ok s1 /\
      SpanBased.run (t1 ++ t2) SpanBased.init = Ok s2 /\
      SpanBased.lastStepTs s1 <= SpanBased.lastStepTs s2 /\
      forall t, In t (SpanBased.stepTimestamps s2) ->
                In t (step_readings (t1 ++ t2))) /\
  (exists s1 s2,
      DensityBased.run t1 DensityBased.init = Ok s1 /\
      DensityBased.run (t1 ++ t2) DensityBased.init = Ok s2 /\
      DensityBased.lastStepTs s1 <= DensityBased.lastStepTs s2 /\
      forall t, In t (DensityBased.stepTimestamps s2) ->
                In t (step_readings (t1 ++ t2))).
Proof.
  split.
  - destruct (span_run_ok t1 SpanBased.init) as [s1 [H1 I1]];
      [apply window_ok_empty|].
    destruct (span_run_ok t2 s1 I1) as [s2 [H2 _]].
    assert (H12 : SpanBased.run (t1 ++ t2) SpanBased.init = Ok s2)
      by (rewrite span_run_app, H1; exact H2).
    exists s1, s2. split; [exact H1|]. split; [exact H12|].
    split; [apply (span_run_provenance t2 s1 s2 H2)|].
    intros t Ht.
    destruct (span_run_provenance _ _ _ H12) as [Hp _].
    destruct (Hp t Ht) as [[]|Hin]. exact Hin.
  - destruct (density_run_ok t1 DensityBased.init) as [s1 [H1 I1]];
      [apply window_ok_empty|].
    destruct (density_run_ok t2 s1 I1) as [s2 [H2 _]].
    assert (H12 : DensityBased.run (t1 ++ t2) DensityBased.init = Ok s2)
      by (rewrite density_run_app, H1; exact H2).
    exists s1, s2. split; [exact H1|]. split; [exact H12|].
    split; [apply (density_run_provenance t2 s1 s2 H2)|].
    intros t Ht.
    destruct (density_run_provenance _ _ _ H12) as [Hp _].
    destruct (Hp t Ht) as [[]|Hin]. exact Hin.
Qed.

(** ** How many events the window can hold *)

Lemma spaced0_le_last (l : list Z) (x : Z) :
  spaced 0 (l ++ [x]) -> Forall (fun t => t <= x) l.
Proof.
  induction l as [|a l IH]; intro H; [constructor|].
  constructor.
  - pose proof (spaced_head 0 ltac:(lia) a (l ++ [x]) H) as Hh.
    rewrite Forall_forall in Hh.
    specialize (Hh x ltac:(apply in_or_app; right; left; reflexivity)). lia.
  - apply IH. exact (spaced_tail 0 a _ H).
Qed.

Lemma step_readings_are_readings (trace : list Callback) (t : Z) :
  In t (step_readings trace) -> In t (readings trace).
Proof.
  unfold step_readings, readings. rewrite !in_flat_map.
  intros [c [Hc Ht]]. exists c. split; [exact Hc|].
  destruct c; cbn in *; tauto.
Qed.

Lemma readings_before_tick (trace : list Callback) (now t : Z) :
  monotonic_clock (trace ++ [Tick now]) ->
  In t (step_readings trace) -> t <= now.
Proof.
  unfold monotonic_clock, readings. rewrite flat_map_app. cbn [flat_map].
  rewrite app_nil_r. intros H Ht.
  apply spaced0_le_last in H. rewrite Forall_forall in H.
  apply H. apply step_readings_are_readings. exact Ht.
Qed.

(** A spaced list inside an interval of length [width] has at most
    [width / gap + 1] entries. *)
Lemma spaced_count_in_interval (gap lo width : Z) (l : list Z) :
  0 < gap ->
  spaced gap l ->
  Forall (fun t => lo <= t <= lo + width) l ->
  (Z.of_nat (List.length l) - 1) * gap <= width \/ l = [].
Proof.
  intros Hgap Hs Hin. destruct l as [|a l]; [right; reflexivity|left].
  pose proof (spaced_total_span gap (a :: l) ltac:(cbn; lia) Hs) as H.
  rewrite Forall_forall in Hin.
  assert (H0 : lo <= nth 0 (a :: l) 0) by (apply Hin; left; reflexivity).
  assert (H1 : nth (List.length (a :: l) - 1) (a :: l) 0 <= lo + width).
  { apply Hin. apply nth_In. cbn [List.length]. lia. }
  lia.
Qed.

Lemma span_kept_count (trace : list Callback) (now : Z) (s : SpanBased.State) :
  monotonic_clock (trace ++ [Tick now]) ->
  SpanBased.run trace SpanBased.init = Ok s ->
  SpanBased.window_invariant s ->
  (List.length
     (filter (fun ts => (now - 5 * 1000 <=? ts)%Z)
        (SpanBased.stepTimestamps s))
   <= 17)%nat.
Proof.
  intros Hclock Hrun Hinv.
  set (kept := filter _ _).
  assert (Hs : spaced 300 kept)
    by (apply spaced_filter; [discriminate|apply Hinv]).
  assert (Hin : Forall (fun t => now - 5000 <= t <= now - 5000 + 5000) kept).
  { apply Forall_forall. intros t Ht. apply filter_In in Ht.
    destruct Ht as [Ht Hlo]. apply Z.leb_le in Hlo.
    destruct (span_run_provenance trace _ _ Hrun) as [Hp _].
    destruct (Hp t Ht) as [[]|Hr].
    pose proof (readings_before_tick trace now t Hclock Hr). lia. }
  destruct (spaced_count_in_interval 300 (now - 5000) 5000 kept
              ltac:(lia) Hs Hin) as [H|H]; [lia|rewrite H; cbn; lia].
Qed.

Lemma density_kept_count (trace : list Callback) (now : Z)
  (s : DensityBased.State) :
  monotonic_clock (trace ++ [Tick now]) ->
  DensityBased.run trace DensityBased.init = Ok s ->
  DensityBased.window_invariant s ->
  (List.length
     (filter (fun ts => (now - 5 * 1000 <=? ts)%Z)
        (DensityBased.stepTimestamps s))
   <= 21)%nat.
Proof.
  intros Hclock Hrun Hinv.
  set (kept := filter _ _).
  assert (Hs : spaced 250 kept)
    by (apply spaced_filter; [discriminate|apply Hinv]).
  assert (Hin : Forall (fun t => now - 5000 <= t <= now - 5000 + 5000) kept).
  { apply Forall_forall. intros t Ht. apply filter_In in Ht.
    destruct Ht as [Ht Hlo]. apply Z.leb_le in Hlo.
    destruct (density_run_provenance trace _ _ Hrun) as [Hp _].
    destruct (Hp t Ht) as [[]|Hr].
    pose proof (readings_before_tick trace now t Hclock Hr). lia. }
  destruct (spaced_count_in_interval 250 (now - 5000) 5000 kept
              ltac:(lia) Hs Hin) as [H|H]; [lia|rewrite H; cbn; lia].
Qed.

(** X8. Under a non-decreasing clock, a compute at time [now] after any
    run from the initial state retains at most 17 events in the span-based
    revision and at most 21 in the density-based one (five seconds over the
    refractory interval, plus one), so the density-based rate is at most
    252 events per minute. *)
Theorem window_count_is_capped (trace : list Callback) (now : Z) :
  monotonic_clock (trace ++ [Tick now]) ->
  (exists s s' r,
      SpanBased.run trace SpanBased.init = Ok s /\
      SpanBased.computeCadence now s = Ok (s', r) /\
      (List.length (SpanBased.stepTimestamps s') <= 17)%nat) /\
  (exists s s' r,
      DensityBased.run trace DensityBased.init = Ok s /\
      DensityBased.computeCadence now s = Ok (s', r) /\
      (List.length (DensityBased.stepTimestamps s') <= 21)%nat /\
      (r <= 252)%Q).
Proof.
  intro Hclock. split.
  - destruct (span_run_ok trace SpanBased.init) as [s [Hrun Hinv]];
      [apply window_ok_empty|].
    destruct (span_computeCadence_total now s) as [s' [r [Hc [Hk _]]]].
    exists s, s', r. split; [exact Hrun|]. split; [exact Hc|].
    rewrite Hk. exact (span_kept_count trace now s Hclock Hrun Hinv).
  - destruct (density_run_ok trace DensityBased.init) as [s [Hrun Hinv]];
      [apply window_ok_empty|].
    destruct (density_computeCadence_total now s) as [s' [r [Hc [Hk _]]]].
    pose proof (density_kept_count trace now s Hclock Hrun Hinv) as Hn.
    exists s, s', r. split; [exact Hrun|]. split; [exact Hc|].
    rewrite Hk. split; [exact Hn|].
    rewrite (density_rate_closed_form now s s' r Hc), Hk.
    change 252%Q with (inject_Z 252). rewrite <- Zle_Qle. lia.
Qed.

Lemma window_count_is_capped_witness :
  monotonic_clock
    ([SimulateStep 1000; SimulateStep 1300; Tick 1500; SimulateStep 2000]
     ++ [Tick 2500]) /\
  exists s s' r,
    DensityBased.run
      [SimulateStep 1000; SimulateStep 1300; Tick 1500; SimulateStep 2000]
      DensityBased.init = Ok s /\
    DensityBased.computeCadence 2500 s = Ok (s', r) /\
    (r <= 252)%Q.
Proof.
  split.
  - cbn. lia.
  - destruct (window_count_is_capped
                [SimulateStep 1000; SimulateStep 1300; Tick 1500;
                 SimulateStep 2000] 2500)
      as [_ [s [s' [r [Hrun [Hc [_ Hr]]]]]]].
    + cbn. lia.
    + exists s, s', r. repeat split; assumption.
Defined.

(** ** Pruning *)

Lemma filter_later_window (now1 now2 : Z) (l : list Z) :
  now1 <= now2 ->
  filter (fun ts => now2 - 5 * 1000 <=? ts)
    (filter (fun ts => now1 - 5 * 1000 <=? ts) l) =
  filter (fun ts => now2 - 5 * 1000 <=? ts) l.
Proof.
  intro H. induction l as [|a l IH]; [reflexivity|].
  cbn [filter].
  destruct (Z.leb_spec (now1 - 5 * 1000) a) as [H1|H1];
    destruct (Z.leb_spec (now2 - 5 * 1000) a) as [H2|H2]; cbn [filter].
  - destruct (Z.leb_spec (now2 - 5 * 1000) a); [|lia]. rewrite IH.
    reflexivity.
  - destruct (Z.leb_spec (now2 - 5 * 1000) a); [lia|]. exact IH.
  - lia.
  - exact IH.
Qed.

(** X9. A compute at a later time gives the same rate and leaves the same
    window whether or not an earlier compute pruned the window before; in
    particular computing twice at the same time changes nothing the second
    time.  Both revisions. *)
Theorem earlier_compute_does_not_change_later_rate (now1 now2 : Z) :
  now1 <= now2 ->
  (forall (s s1 : SpanBased.State) (r1 : Q),
      SpanBased.computeCadence now1 s = Ok (s1, r1) ->
      SpanBased.computeCadence now2 s1 = SpanBased.computeCadence now2 s /\
      SpanBased.computeCadence now1 s1 = Ok (s1, r1)) /\
  (forall (s s1 : DensityBased.State) (r1 : Q),
      DensityBased.computeCadence now1 s = Ok (s1, r1) ->
      DensityBased.computeCadence now2 s1 =
        DensityBased.computeCadence now2 s /\
      DensityBased.computeCadence now1 s1 = Ok (s1, r1)).
Proof.
  intro Hle. split; intros s s1 r1 H.
  - pose proof (span_computeCadence_state _ _ _ _ H) as E. split.
    + subst s1. unfold SpanBased.computeCadence.
      cbn [SpanBased.stepTimestamps SpanBased.lastStepTs SpanBased.gravity
           SpanBased.cadenceHistory SpanBased.chartData
           SpanBased.lastFiltered SpanBased.lastPeakTime
           SpanBased.prevFiltered SpanBased.cadenceEl SpanBased.stateEl].
      change (SpanBased.windowSeconds * 1000) with (5 * 1000).
      rewrite (filter_later_window now1 now2 _ Hle). reflexivity.
    + rewrite <- H. subst s1. unfold SpanBased.computeCadence.
      cbn [SpanBased.stepTimestamps SpanBased.lastStepTs SpanBased.gravity
           SpanBased.cadenceHistory SpanBased.chartData
           SpanBased.lastFiltered SpanBased.lastPeakTime
           SpanBased.prevFiltered SpanBased.cadenceEl SpanBased.stateEl].
      change (SpanBased.windowSeconds * 1000) with (5 * 1000).
      rewrite (filter_later_window now1 now1 _ (Z.le_refl _)). reflexivity.
  - pose proof (density_computeCadence_state _ _ _ _ H) as E. split.
    + subst s1. unfold DensityBased.computeCadence.
      cbn [DensityBased.stepTimestamps DensityBased.lastStepTs
           DensityBased.gravity DensityBased.cadenceHistory
           DensityBased.chartData DensityBased.lastFiltered
           DensityBased.lastPeakTime DensityBased.cadenceEl
           DensityBased.stateEl].
      change (DensityBased.windowSeconds * 1000) with (5 * 1000).
      rewrite (filter_later_window now1 now2 _ Hle). reflexivity.
    + rewrite <- H. subst s1. unfold DensityBased.computeCadence.
      cbn [DensityBased.stepTimestamps DensityBased.lastStepTs
           DensityBased.gravity DensityBased.cadenceHistory
           DensityBased.chartData DensityBased.lastFiltered
           DensityBased.lastPeakTime DensityBased.cadenceEl
           DensityBased.stateEl].
      change (DensityBased.windowSeconds * 1000) with (5 * 1000).
      rewrite (filter_later_window now1 now1 _ (Z.le_refl _)). reflexivity.
Qed.

Lemma earlier_compute_does_not_change_later_rate_witness :
  1000 <= 7000 /\
  DensityBased.computeCadence 7000
    (DensityBased.mkState 3000 [3000] (mkVec3 0 0 0) (repeat None 60)
       (repeat None 60) 0%float 0 Dashes DensityBased.initializing) =
  DensityBased.computeCadence 7000
    (DensityBased.mkState 3000 [300; 3000] (mkVec3 0 0 0) (repeat None 60)
       (repeat None 60) 0%float 0 Dashes DensityBased.initializing).
Proof.
  split; [lia|].
  destruct (earlier_compute_does_not_change_later_rate 6000 7000) as [_ H];
    [lia|].
  apply (H (DensityBased.mkState 3000 [300; 3000] (mkVec3 0 0 0)
              (repeat None 60) (repeat None 60) 0%float 0 Dashes
              DensityBased.initializing)
           (DensityBased.mkState 3000 [3000] (mkVec3 0 0 0)
              (repeat None 60) (repeat None 60) 0%float 0 Dashes
              DensityBased.initializing)
           (inject_Z 1 / inject_Z 5 * 60)%Q).
  reflexivity.
Defined.

(** ** What a tick delivers *)

Lemma filter_all_expired (now last : Z) (l : list Z) :
  Forall (fun t => t <= last) l ->
  last + 5000 < now ->
  filter (fun ts => now - 5 * 1000 <=? ts) l = [].
Proof.
  intros Hall Hlate. induction Hall as [|a l Ha Hl IH]; [reflexivity|].
  cbn [filter]. destruct (Z.leb_spec (now - 5 * 1000) a); [lia|exact IH].
Qed.

(** X10. A tick that comes more than five seconds after the last accepted
    step finds every entry expired: in any state a run reaches from the
    initial state, in both revisions, such a tick empties the window,
    shows the cadence 0 and delivers the lowest band. *)
Theorem rate_returns_to_zero_after_five_seconds (trace : list Callback)
  (now : Z) :
  (exists s,
      SpanBased.run trace SpanBased.init = Ok s /\
      (SpanBased.lastStepTs s + 5000 < now ->
       exists s',
         SpanBased.tick now s = Ok s' /\
         SpanBased.stepTimestamps s' = [] /\
         SpanBased.cadenceEl s' = Rounded 0 /\
         SpanBased.stateEl s' = SpanBased.song1)) /\
  (exists s,
      DensityBased.run trace DensityBased.init = Ok s /\
      (DensityBased.lastStepTs s + 5000 < now ->
       exists s',
         DensityBased.tick now s = Ok s' /\
         DensityBased.stepTimestamps s' = [] /\
         DensityBased.cadenceEl s' = Rounded 0 /\
         DensityBased.stateEl s' = DensityBased.stationary)).
Proof.
  split.
  - destruct (span_run_ok trace SpanBased.init) as [s [Hrun [_ Hle]]];
      [apply window_ok_empty|].
    exists s. split; [exact Hrun|]. intro Hlate.
    unfold SpanBased.tick, SpanBased.computeCadence.
    change (SpanBased.windowSeconds * 1000) with (5 * 1000).
    rewrite (filter_all_expired now _ _ Hle Hlate).
    cbn [List.length Nat.eqb bind].
    eexists. split; [reflexivity|]. repeat split; reflexivity.
  - destruct (density_run_ok trace DensityBased.init) as [s [Hrun [_ Hle]]];
      [apply window_ok_empty|].
    exists s. split; [exact Hrun|]. intro Hlate.
    unfold DensityBased.tick, DensityBased.computeCadence.
    change (DensityBased.windowSeconds * 1000) with (5 * 1000).
    rewrite (filter_all_expired now _ _ Hle Hlate).
    cbn [List.length Nat.eqb bind].
    eexists. split; [reflexivity|]. repeat split; reflexivity.
Qed.

Lemma rate_returns_to_zero_after_five_seconds_witness :
  exists s',
    DensityBased.tick 6001 (DensityBased.simulateStep 1000 DensityBased.init)
      = Ok s' /\
    DensityBased.stepTimestamps s' = [] /\
    DensityBased.cadenceEl s' = Rounded 0.
Proof.
  destruct (rate_returns_to_zero_after_five_seconds [SimulateStep 1000] 6001)
    as [_ [s [Hrun H]]].
  cbn in Hrun. inversion Hrun; subst s.
  destruct H as [s' [Ht [Hw [Hc _]]]]; [cbn; lia|].
  exists s'. repeat split; assumption.
Defined.

Lemma Math_round_nearest (r : Q) :
  (r - (1 # 2) < inject_Z (Math_round r))%Q /\
  (inject_Z (Math_round r) <= r + (1 # 2))%Q.
Proof.
  unfold Math_round. split.
  - pose proof (Qlt_floor (r + (1 # 2))) as H.
    rewrite inject_Z_plus in H. change (inject_Z 1) with 1%Q in H. lra.
  - apply Qfloor_le.
Qed.

Lemma Math_round_integer (r : Q) (n : Z) :
  (r == inject_Z n)%Q -> Math_round r = n.
Proof.
  intro E. unfold Math_round.
  assert (Hlo : n <= Qfloor (r + (1 # 2))).
  { rewrite <- (Qfloor_Z n). apply Qfloor_resp_le. rewrite E. lra. }
  assert (Hhi : Qfloor (r + (1 # 2)) < n + 1).
  { rewrite Zlt_Qlt.
    apply Qle_lt_trans with (r + (1 # 2))%Q; [apply Qfloor_le|].
    rewrite E, inject_Z_plus. change (inject_Z 1) with 1%Q. lra. }
  lia.
Qed.

Lemma last_after_push {A : Type} (h : list A) (c d : A) :
  last (if (60 <? List.length (h ++ [c]))%nat then tl (h ++ [c])
        else h ++ [c]) d = c.
Proof.
  destruct (60 <? List.length (h ++ [c]))%nat eqn:E;
    [|apply last_last].
  destruct h as [|a h]; [discriminate E|].
  cbn [app tl]. apply last_last.
Qed.

Lemma span_classify_is_a_band (r : Q) :
  SpanBased.classify r <> SpanBased.initializing.
Proof.
  unfold SpanBased.classify.
  repeat match goal with |- context [if ?c then _ else _] => destruct c end;
    discriminate.
Qed.

Lemma density_classify_is_a_band (r : Q) :
  DensityBased.classify r <> DensityBased.initializing.
Proof.
  unfold DensityBased.classify.
  repeat match goal with |- context [if ?c then _ else _] => destruct c end;
    discriminate.
Qed.

(** X11. Every tick, in any state and at any time, in both revisions:
    computes a rate [r], shows [r] rounded to the nearest integer (never
    ['--'], and within 1/2 of [r]), delivers the band [classify r] (never
    "initializing"), and makes [r] the newest slot of the history.  In
    the density-based revision the number shown is exactly 12 times the
    number of retained events. *)
Theorem tick_delivers_rate_and_band (now : Z) :
  (forall s : SpanBased.State, exists s' s1 r,
      SpanBased.computeCadence now s = Ok (s1, r) /\
      SpanBased.tick now s = Ok s' /\
      SpanBased.stepTimestamps s' = SpanBased.stepTimestamps s1 /\
      SpanBased.cadenceEl s' = Rounded (Math_round r) /\
      (r - (1 # 2) < inject_Z (Math_round r) <= r + (1 # 2))%Q /\
      SpanBased.stateEl s' = SpanBased.classify r /\
      SpanBased.stateEl s' <> SpanBased.initializing /\
      last (SpanBased.cadenceHistory s') None = Some r) /\
  (forall s : DensityBased.State, exists s' s1 r,
      DensityBased.computeCadence now s = Ok (s1, r) /\
      DensityBased.tick now s = Ok s' /\
      DensityBased.stepTimestamps s' = DensityBased.stepTimestamps s1 /\
      DensityBased.cadenceEl s' =
        Rounded
          (12 * Z.of_nat (List.length (DensityBased.stepTimestamps s'))) /\
      DensityBased.stateEl s' = DensityBased.classify r /\
      DensityBased.stateEl s' <> DensityBased.initializing /\
      last (DensityBased.cadenceHistory s') None = Some r).
Proof.
  split; intro s.
  - destruct (span_computeCadence_total now s) as [s1 [r [Hc _]]].
    exists (SpanBased.pushHistory r (SpanBased.updateUI (Some r) s1)), s1, r.
    split; [exact Hc|]. unfold SpanBased.tick. rewrite Hc. cbn [bind].
    split; [reflexivity|]. split; [reflexivity|]. split; [reflexivity|].
    split; [apply Math_round_nearest|]. split; [reflexivity|].
    split; [apply span_classify_is_a_band|].
    cbn [SpanBased.pushHistory SpanBased.cadenceHistory SpanBased.updateUI].
    apply last_after_push.
  - destruct (density_computeCadence_total now s) as [s1 [r [Hc _]]].
    exists (DensityBased.pushHistory r (DensityBased.updateUI (Some r) s1)),
      s1, r.
    split; [exact Hc|]. unfold DensityBased.tick. rewrite Hc. cbn [bind].
    split; [reflexivity|]. split; [reflexivity|]. split.
    { cbn [DensityBased.pushHistory DensityBased.updateUI
           DensityBased.cadenceEl DensityBased.stepTimestamps].
      f_equal. apply Math_round_integer.
      exact (density_rate_closed_form now s s1 r Hc). }
    split; [reflexivity|].
    split; [apply density_classify_is_a_band|].
    cbn [DensityBased.pushHistory DensityBased.cadenceHistory
         DensityBased.updateUI].
    apply last_after_push.
Qed.

(** ** The two rate formulas *)

(** The exact value of the span-based rate for evenly spaced events. *)
Lemma span_exact_rate_of_even_steps (now p : Z) (s s' : SpanBased.State)
  (r : Q) :
  SpanBased.computeCadence now s = Ok (s', r) ->
  (2 <= List.length (SpanBased.stepTimestamps s'))%nat ->
  0 < p ->
  nth (List.length (SpanBased.stepTimestamps s') - 1)
      (SpanBased.stepTimestamps s') 0
    - nth 0 (SpanBased.stepTimestamps s') 0 =
    (Z.of_nat (List.length (SpanBased.stepTimestamps s')) - 1) * p ->
  (r == 60000 / inject_Z p)%Q.
Proof.
  intros H Hlen Hp Hspan.
  pose proof (span_computeCadence_state _ _ _ _ H) as E. subst s'.
  cbn [SpanBased.stepTimestamps] in Hlen, Hspan.
  revert H Hlen Hspan. unfold SpanBased.computeCadence.
  change (SpanBased.windowSeconds * 1000) with (5 * 1000).
  set (kept := filter _ _). intros H Hlen Hspan.
  destruct (List.length kept =? 0)%nat eqn:E0;
    [apply Nat.eqb_eq in E0; lia|].
  destruct (2 <=? List.length kept)%nat eqn:E2;
    [|apply Nat.leb_gt in E2; lia].
  rewrite Hspan in H.
  set (c := Z.of_nat (List.length kept) - 1) in *.
  assert (Hc : 0 < c) by (unfold c; lia).
  assert (HcQ : (0 < inject_Z c)%Q)
    by (change 0%Q with (inject_Z 0); rewrite <- Zlt_Qlt; exact Hc).
  assert (HpQ : (0 < inject_Z p)%Q)
    by (change 0%Q with (inject_Z 0); rewrite <- Zlt_Qlt; exact Hp).
  assert (Hmin : (0 < inject_Z (c * p) / 60000)%Q).
  { apply Qlt_shift_div_l; [reflexivity|]. rewrite Qmult_0_l.
    change 0%Q with (inject_Z 0). rewrite <- Zlt_Qlt. nia. }
  rewrite (divide_positive _ 60000) in H by reflexivity. cbn [bind] in H.
  rewrite (proj2 (Qle_bool_false_iff _ _) Hmin) in H.
  rewrite (divide_positive _ _ Hmin) in H. cbn [bind] in H.
  inversion H; subst. rewrite inject_Z_mult. field.
  split; intro Hz; [rewrite Hz in HpQ|rewrite Hz in HcQ];
    exact (Qlt_irrefl 0 ltac:(assumption)).
Qed.

(** X12. In the span-based revision, when a tick retains at least two
    events and the last is [count - 1] periods of [p] ms after the first
    (as for steps every [p] ms), with [p] a divisor of 60000, the number
    the tick shows is [60000 / p], however many events are retained. *)
Theorem span_even_steps_display (now p : Z) (s s' : SpanBased.State) :
  SpanBased.tick now s = Ok s' ->
  (2 <= List.length (SpanBased.stepTimestamps s'))%nat ->
  0 < p ->
  (p | 60000) ->
  nth (List.length (SpanBased.stepTimestamps s') - 1)
      (SpanBased.stepTimestamps s') 0
    - nth 0 (SpanBased.stepTimestamps s') 0 =
    (Z.of_nat (List.length (SpanBased.stepTimestamps s')) - 1) * p ->
  SpanBased.cadenceEl s' = Rounded (60000 / p).
Proof.
  intros Ht Hlen Hp [k Hk] Hspan. unfold SpanBased.tick in Ht.
  destruct (SpanBased.computeCadence now s) as [[s1 r]|] eqn:Hc;
    cbn [bind] in Ht; [|discriminate].
  inversion Ht; subst s'.
  cbn [SpanBased.pushHistory SpanBased.updateUI SpanBased.stepTimestamps
       SpanBased.cadenceEl] in *.
  pose proof (span_exact_rate_of_even_steps now p s s1 r Hc Hlen Hp Hspan)
    as Hr.
  f_equal. apply Math_round_integer. rewrite Hr.
  change 60000%Q with (inject_Z 60000). rewrite Hk.
  rewrite Z.div_mul by lia. rewrite inject_Z_mult. field.
  intro Hz.
  assert (HpQ : (0 < inject_Z p)%Q)
    by (change 0%Q with (inject_Z 0); rewrite <- Zlt_Qlt; exact Hp).
  rewrite Hz in HpQ. exact (Qlt_irrefl 0 HpQ).
Qed.

Lemma span_even_steps_display_witness :
  exists s',
    SpanBased.tick 14200
      (fold_left (fun s t => SpanBased.simulateStep t s)
         [10000; 10600; 11200; 11800; 12400; 13000; 13600; 14200]
         SpanBased.init) = Ok s' /\
    SpanBased.cadenceEl s' = Rounded 100.
Proof.
  set (s := fold_left (fun s t => SpanBased.simulateStep t s)
              [10000; 10600; 11200; 11800; 12400; 13000; 13600; 14200]
              SpanBased.init).
  destruct (span_computeCadence_total 14200 s) as [s1 [r [Hc [Hk _]]]].
  assert (Ht : SpanBased.tick 14200 s =
               Ok (SpanBased.pushHistory r (SpanBased.updateUI (Some r) s1)))
    by (unfold SpanBased.tick; rewrite Hc; reflexivity).
  eexists. split; [exact Ht|].
  assert (Hw : SpanBased.stepTimestamps s1 =
               [10000; 10600; 11200; 11800; 12400; 13000; 13600; 14200])
    by (rewrite Hk; reflexivity).
  apply (span_even_steps_display 14200 600 s _ Ht).
  - cbn [SpanBased.pushHistory SpanBased.updateUI SpanBased.stepTimestamps].
    rewrite Hw. cbn. lia.
  - lia.
  - exists 100. reflexivity.
  - cbn [SpanBased.pushHistory SpanBased.updateUI SpanBased.stepTimestamps].
    rewrite Hw. reflexivity.
Defined.

(** X13. With exactly one event retained, both revisions return 12 events
    per minute (60 over the five-second window): the span-based revision
    falls back on the density formula there. *)
Theorem single_retained_event_gives_12 (now : Z) :
  (forall (s s' : SpanBased.State) (r : Q),
      SpanBased.computeCadence now s = Ok (s', r) ->
      List.length (SpanBased.stepTimestamps s') = 1%nat ->
      (r == 12)%Q) /\
  (forall (s s' : DensityBased.State) (r : Q),
      DensityBased.computeCadence now s = Ok (s', r) ->
      List.length (DensityBased.stepTimestamps s') = 1%nat ->
      (r == 12)%Q).
Proof.
  split; intros s s' r H Hlen.
  - pose proof (span_computeCadence_state _ _ _ _ H) as E. subst s'.
    cbn [SpanBased.stepTimestamps] in Hlen.
    revert H Hlen. unfold SpanBased.computeCadence.
    change (SpanBased.windowSeconds * 1000) with (5 * 1000).
    set (kept := filter _ _). intros H Hlen. rewrite Hlen in H.
    cbn [Nat.eqb Nat.leb] in H.
    rewrite (divide_positive _ (inject_Z SpanBased.windowSeconds)) in H
      by reflexivity.
    cbn [bind] in H. inversion H; subst. reflexivity.
  - rewrite (density_rate_closed_form now s s' r H), Hlen. reflexivity.
Qed.

Lemma single_retained_event_gives_12_witness :
  exists s' r,
    SpanBased.computeCadence 2000
      (SpanBased.simulateStep 1000 SpanBased.init) = Ok (s', r) /\
    (r == 12)%Q.
Proof.
  destruct (span_computeCadence_total 2000
              (SpanBased.simulateStep 1000 SpanBased.init))
    as [s' [r [Hc [Hk _]]]].
  exists s', r. split; [exact Hc|].
  destruct (single_retained_event_gives_12 2000) as [H _].
  apply (H _ s' r Hc). rewrite Hk. reflexivity.
Defined.

(** ** Reset and the detector *)

(** X14. [resetAll] leaves the detector as it was, in both revisions: the
    gravity estimate, the retained magnitudes, [lastPeakTime] and
    [lastStepTs] are unchanged.  So the refractory gate survives a reset:
    an injection less than the refractory interval after the last accepted
    step is still rejected after it, and one at or past the interval
    leaves a window of that single entry.  A second reset changes
    nothing. *)
Theorem reset_keeps_the_detector :
  (forall s : SpanBased.State,
      SpanBased.gravity (SpanBased.resetAll s) = SpanBased.gravity s /\
      SpanBased.lastFiltered (SpanBased.resetAll s) =
        SpanBased.lastFiltered s /\
      SpanBased.prevFiltered (SpanBased.resetAll s) =
        SpanBased.prevFiltered s /\
      SpanBased.lastPeakTime (SpanBased.resetAll s) =
        SpanBased.lastPeakTime s /\
      SpanBased.lastStepTs (SpanBased.resetAll s) = SpanBased.lastStepTs s /\
      SpanBased.resetAll (SpanBased.resetAll s) = SpanBased.resetAll s /\
      (forall now,
          now - SpanBased.lastStepTs s < SpanBased.MIN_STEP_INTERVAL ->
          SpanBased.simulateStep now (SpanBased.resetAll s) =
            SpanBased.resetAll s) /\
      (forall now,
          SpanBased.MIN_STEP_INTERVAL <= now - SpanBased.lastStepTs s ->
          SpanBased.stepTimestamps
            (SpanBased.simulateStep now (SpanBased.resetAll s)) = [now])) /\
  (forall s : DensityBased.State,
      DensityBased.gravity (DensityBased.resetAll s) = DensityBased.gravity s /\
      DensityBased.lastFiltered (DensityBased.resetAll s) =
        DensityBased.lastFiltered s /\
      DensityBased.lastPeakTime (DensityBased.resetAll s) =
        DensityBased.lastPeakTime s /\
      DensityBased.lastStepTs (DensityBased.resetAll s) =
        DensityBased.lastStepTs s /\
      DensityBased.resetAll (DensityBased.resetAll s) =
        DensityBased.resetAll s /\
      (forall now,
          now - DensityBased.lastStepTs s < DensityBased.MIN_STEP_INTERVAL ->
          DensityBased.simulateStep now (DensityBased.resetAll s) =
            DensityBased.resetAll s) /\
      (forall now,
          DensityBased.MIN_STEP_INTERVAL <= now - DensityBased.lastStepTs s ->
          DensityBased.stepTimestamps
            (DensityBased.simulateStep now (DensityBased.resetAll s)) =
            [now])).
Proof.
  split; intro s; repeat (split; [reflexivity|]); split; intros now H.
  - apply span_onStep_reject. exact H.
  - unfold SpanBased.simulateStep. rewrite span_onStep_accept.
    + reflexivity.
    + unfold SpanBased.MIN_STEP_INTERVAL in H.
      change (SpanBased.lastStepTs (SpanBased.resetAll s))
        with (SpanBased.lastStepTs s). lia.
  - apply density_onStep_reject. exact H.
  - unfold DensityBased.simulateStep. rewrite density_onStep_accept.
    + reflexivity.
    + unfold DensityBased.MIN_STEP_INTERVAL in H.
      change (DensityBased.lastStepTs (DensityBased.resetAll s))
        with (DensityBased.lastStepTs s). lia.
Qed.

Lemma reset_keeps_the_detector_witness :
  DensityBased.simulateStep 1100
    (DensityBased.resetAll
       (DensityBased.simulateStep 1000 DensityBased.init)) =
  DensityBased.resetAll (DensityBased.simulateStep 1000 DensityBased.init).
Proof.
  destruct reset_keeps_the_detector as [_ H].
  destruct (H (DensityBased.simulateStep 1000 DensityBased.init))
    as [_ [_ [_ [_ [_ [Hrej _]]]]]].
  apply Hrej. unfold DensityBased.MIN_STEP_INTERVAL. cbn. lia.
Defined.

Lemma span_handleMotion_quiet (ev : DeviceMotionEvent) (now : Z)
  (s : SpanBased.State) :
  now - SpanBased.lastPeakTime s <= 300 ->
  SpanBased.stepTimestamps (SpanBased.handleMotion ev now s) =
    SpanBased.stepTimestamps s /\
  SpanBased.lastPeakTime (SpanBased.handleMotion ev now s) =
    SpanBased.lastPeakTime s /\
  SpanBased.lastStepTs (SpanBased.handleMotion ev now s) =
    SpanBased.lastStepTs s.
Proof.
  intro H. unfold SpanBased.handleMotion.
  destruct (accelerationIncludingGravity ev) as [a|];
    [|repeat split; reflexivity].
  cbv zeta. cbn [SpanBased.lastPeakTime].
  replace (SpanBased.MIN_STEP_INTERVAL <? now - SpanBased.lastPeakTime s)
    with false
    by (symmetry; apply Z.ltb_ge; unfold SpanBased.MIN_STEP_INTERVAL; lia).
  rewrite Bool.andb_false_r. repeat split; reflexivity.
Qed.

Lemma density_handleMotion_quiet (ev : DeviceMotionEvent) (now : Z)
  (s : DensityBased.State) :
  now - DensityBased.lastPeakTime s <= 250 ->
  DensityBased.stepTimestamps (DensityBased.handleMotion ev now s) =
    DensityBased.stepTimestamps s /\
  DensityBased.lastPeakTime (DensityBased.handleMotion ev now s) =
    DensityBased.lastPeakTime s /\
  DensityBased.lastStepTs (DensityBased.handleMotion ev now s) =
    DensityBased.lastStepTs s.
Proof.
  intro H. unfold DensityBased.handleMotion.
  destruct (accelerationIncludingGravity ev) as [a|];
    [|repeat split; reflexivity].
  cbv zeta. cbn [DensityBased.lastPeakTime].
  replace (DensityBased.MIN_STEP_INTERVAL <? now - DensityBased.lastPeakTime s)
    with false
    by (symmetry; apply Z.ltb_ge; unfold DensityBased.MIN_STEP_INTERVAL; lia).
  rewrite Bool.andb_false_r. repeat split; reflexivity.
Qed.

(** X15. A motion sample that arrives no later than the refractory interval
    after [lastPeakTime] records nothing, whatever it carries: the window,
    [lastPeakTime] and [lastStepTs] stay as they are.  The detector's test
    is strict, so a sample exactly one interval after the last peak is
    still too early (300 ms span-based, 250 ms density-based). *)
Theorem handleMotion_refractory (ev : DeviceMotionEvent) (now : Z) :
  (forall s : SpanBased.State,
      now - SpanBased.lastPeakTime s <= SpanBased.MIN_STEP_INTERVAL ->
      SpanBased.stepTimestamps (SpanBased.handleMotion ev now s) =
        SpanBased.stepTimestamps s /\
      SpanBased.lastPeakTime (SpanBased.handleMotion ev now s) =
        SpanBased.lastPeakTime s /\
      SpanBased.lastStepTs (SpanBased.handleMotion ev now s) =
        SpanBased.lastStepTs s) /\
  (forall s : DensityBased.State,
      now - DensityBased.lastPeakTime s <= DensityBased.MIN_STEP_INTERVAL ->
      DensityBased.stepTimestamps (DensityBased.handleMotion ev now s) =
        DensityBased.stepTimestamps s /\
      DensityBased.lastPeakTime (DensityBased.handleMotion ev now s) =
        DensityBased.lastPeakTime s /\
      DensityBased.lastStepTs (DensityBased.handleMotion ev now s) =
        DensityBased.lastStepTs s).
Proof.
  split; intros s H.
  - exact (span_handleMotion_quiet ev now s H).
  - exact (density_handleMotion_quiet ev now s H).
Qed.

Lemma handleMotion_refractory_witness :
  let peak := mkEv (Some (mkAcc (Some 0%float) (Some 9.8%float)
                            (Some 0%float))) in
  let rest := mkEv (Some (mkAcc (Some 0%float) (Some 0%float)
                            (Some 0%float))) in
  let s := DensityBased.handleMotion rest 2000
             (DensityBased.handleMotion peak 1000 DensityBased.init) in
  DensityBased.lastPeakTime s = 2000 /\
  DensityBased.stepTimestamps (DensityBased.handleMotion peak 2250 s) = [2000].
Proof.
  cbv zeta. split; [vm_compute; reflexivity|].
  destruct (handleMotion_refractory
              (mkEv (Some (mkAcc (Some 0%float) (Some 9.8%float)
                             (Some 0%float)))) 2250) as [_ H].
  match goal with |- DensityBased.stepTimestamps
                       (DensityBased.handleMotion _ _ ?s) = _ =>
    destruct (H s) as [E _] end.
  - vm_compute. discriminate.
  - rewrite E. vm_compute. reflexivity.
Defined.

Lemma span_handleMotion_at_rest (ev : DeviceMotionEvent) (now : Z)
  (s : SpanBased.State) :
  SpanBased.lastFiltered s = 0%float ->
  SpanBased.stepTimestamps (SpanBased.handleMotion ev now s) =
    SpanBased.stepTimestamps s /\
  SpanBased.lastPeakTime (SpanBased.handleMotion ev now s) =
    SpanBased.lastPeakTime s /\
  SpanBased.lastStepTs (SpanBased.handleMotion ev now s) =
    SpanBased.lastStepTs s.
Proof.
  intro H0. unfold SpanBased.handleMotion.
  destruct (accelerationIncludingGravity ev) as [a|];
    [|repeat split; reflexivity].
  cbv zeta. cbn [SpanBased.lastFiltered SpanBased.prevFiltered].
  rewrite H0.
  change (SpanBased.PEAK_THRESHOLD <? 0)%float with false.
  rewrite Bool.andb_false_r. cbn [andb]. repeat split; reflexivity.
Qed.

Lemma density_handleMotion_at_rest (ev : DeviceMotionEvent) (now : Z)
  (s : DensityBased.State) :
  DensityBased.lastFiltered s = 0%float ->
  DensityBased.stepTimestamps (DensityBased.handleMotion ev now s) =
    DensityBased.stepTimestamps s /\
  DensityBased.lastPeakTime (DensityBased.handleMotion ev now s) =
    DensityBased.lastPeakTime s /\
  DensityBased.lastStepTs (DensityBased.handleMotion ev now s) =
    DensityBased.lastStepTs s.
Proof.
  intro H0. unfold DensityBased.handleMotion.
  destruct (accelerationIncludingGravity ev) as [a|];
    [|repeat split; reflexivity].
  cbv zeta. cbn [DensityBased.lastFiltered].
  rewrite H0.
  change (DensityBased.PEAK_THRESHOLD <? 0)%float with false.
  cbn [andb]. repeat split; reflexivity.
Qed.

Lemma span_run_at_rest (trace : list Callback) :
  no_motion trace ->
  forall s0 s,
    SpanBased.run trace s0 = Ok s ->
    SpanBased.lastFiltered s = SpanBased.lastFiltered s0.
Proof.
  induction 1 as [|c rest Hc Hrest IH]; intros s0 s Hrun;
    cbn [SpanBased.run] in Hrun.
  - inversion Hrun; reflexivity.
  - destruct (SpanBased.step c s0) as [s1|] eqn:Hs;
      cbn [bind] in Hrun; [|discriminate].
    rewrite (IH s1 s Hrun).
    destruct c as [ev now|now| |now]; cbn [SpanBased.step] in Hs.
    + contradiction.
    + inversion Hs; subst s1. unfold SpanBased.simulateStep, SpanBased.onStep.
      destruct (now - SpanBased.lastStepTs s0 <? _); reflexivity.
    + inversion Hs; subst s1. reflexivity.
    + unfold SpanBased.tick in Hs.
      destruct (SpanBased.computeCadence now s0) as [[s2 r]|] eqn:Hcc;
        cbn [bind] in Hs; [|discriminate].
      inversion Hs; subst s1.
      apply span_computeCadence_state in Hcc. subst s2. reflexivity.
Qed.

Lemma density_run_at_rest (trace : list Callback) :
  no_motion trace ->
  forall s0 s,
    DensityBased.run trace s0 = Ok s ->
    DensityBased.lastFiltered s = DensityBased.lastFiltered s0.
Proof.
  induction 1 as [|c rest Hc Hrest IH]; intros s0 s Hrun;
    cbn [DensityBased.run] in Hrun.
  - inversion Hrun; reflexivity.
  - destruct (DensityBased.step c s0) as [s1|] eqn:Hs;
      cbn [bind] in Hrun; [|discriminate].
    rewrite (IH s1 s Hrun).
    destruct c as [ev now|now| |now]; cbn [DensityBased.step] in Hs.
    + contradiction.
    + inversion Hs; subst s1.
      unfold DensityBased.simulateStep, DensityBased.onStep.
      destruct (now - DensityBased.lastStepTs s0 <? _); reflexivity.
    + inversion Hs; subst s1. reflexivity.
    + unfold DensityBased.tick in Hs.
      destruct (DensityBased.computeCadence now s0) as [[s2 r]|] eqn:Hcc;
        cbn [bind] in Hs; [|discriminate].
      inversion Hs; subst s1.
      apply density_computeCadence_state in Hcc. subst s2. reflexivity.
Qed.

(** X16. A motion sample that meets a retained magnitude [lastFiltered] of
    0 never records a step, whatever it carries and whenever it comes, in
    both revisions: the window, [lastPeakTime] and [lastStepTs] stay as
    they are.  That is the case of the first motion sample of a run,
    whatever ticks, simulated steps and resets came before it:
    [lastFiltered] is still the 0 it starts with. *)
Theorem first_sample_never_records (ev : DeviceMotionEvent) (now : Z) :
  (forall s : SpanBased.State,
      SpanBased.lastFiltered s = 0%float ->
      SpanBased.stepTimestamps (SpanBased.handleMotion ev now s) =
        SpanBased.stepTimestamps s /\
      SpanBased.lastPeakTime (SpanBased.handleMotion ev now s) =
        SpanBased.lastPeakTime s /\
      SpanBased.lastStepTs (SpanBased.handleMotion ev now s) =
        SpanBased.lastStepTs s) /\
  (forall s : DensityBased.State,
      DensityBased.lastFiltered s = 0%float ->
      DensityBased.stepTimestamps (DensityBased.handleMotion ev now s) =
        DensityBased.stepTimestamps s /\
      DensityBased.lastPeakTime (DensityBased.handleMotion ev now s) =
        DensityBased.lastPeakTime s /\
      DensityBased.lastStepTs (DensityBased.handleMotion ev now s) =
        DensityBased.lastStepTs s) /\
  (forall trace,
      no_motion trace ->
      exists s,
        SpanBased.run trace SpanBased.init = Ok s /\
        SpanBased.lastFiltered s = 0%float /\
        SpanBased.stepTimestamps (SpanBased.handleMotion ev now s) =
          SpanBased.stepTimestamps s) /\
  (forall trace,
      no_motion trace ->
      exists s,
        DensityBased.run trace DensityBased.init = Ok s /\
        DensityBased.lastFiltered s = 0%float /\
        DensityBased.stepTimestamps (DensityBased.handleMotion ev now s) =
          DensityBased.stepTimestamps s).
Proof.
  split; [exact (span_handleMotion_at_rest ev now)|].
  split; [exact (density_handleMotion_at_rest ev now)|].
  split; intros trace Hno.
  - destruct (span_run_ok trace SpanBased.init) as [s [Hrun _]];
      [apply window_ok_empty|].
    pose proof (span_run_at_rest trace Hno _ _ Hrun) as H0.
    exists s. split; [exact Hrun|]. split; [exact H0|].
    apply (span_handleMotion_at_rest ev now s H0).
  - destruct (density_run_ok trace DensityBased.init) as [s [Hrun _]];
      [apply window_ok_empty|].
    pose proof (density_run_at_rest trace Hno _ _ Hrun) as H0.
    exists s. split; [exact Hrun|]. split; [exact H0|].
    apply (density_handleMotion_at_rest ev now s H0).
Qed.

Lemma first_sample_never_records_witness :
  no_motion [Tick 500; SimulateStep 700; Tick 1000; ResetClick; Tick 1500;
             SimulateStep 1600] /\
  exists s,
    DensityBased.run
      [Tick 500; SimulateStep 700; Tick 1000; ResetClick; Tick 1500;
       SimulateStep 1600] DensityBased.init = Ok s /\
    DensityBased.stepTimestamps s = [1600] /\
    DensityBased.stepTimestamps
      (DensityBased.handleMotion
         (mkEv (Some (mkAcc (Some 0%float) (Some 9.8%float) (Some 0%float))))
         2000 s) = [1600].
Proof.
  split; [repeat constructor|].
  destruct (first_sample_never_records
              (mkEv (Some (mkAcc (Some 0%float) (Some 9.8%float)
                             (Some 0%float)))) 2000)
    as [_ [_ [_ H]]].
  destruct (H [Tick 500; SimulateStep 700; Tick 1000; ResetClick; Tick 1500;
               SimulateStep 1600]) as [s [Hrun [_ Hw]]];
    [repeat constructor|].
  exists s. split; [exact Hrun|].
  assert (Hs : DensityBased.stepTimestamps s = [1600]).
  { vm_compute in Hrun. inversion Hrun. reflexivity. }
  split; [exact Hs|]. rewrite Hw. exact Hs.
Defined.

(** ** Runs driven by the sensor alone *)

Lemma span_handleMotion_sync (ev : DeviceMotionEvent) (now : Z)
  (s : SpanBased.State) :
  SpanBased.lastStepTs s = SpanBased.lastPeakTime s ->
  SpanBased.lastStepTs (SpanBased.handleMotion ev now s) =
    SpanBased.lastPeakTime (SpanBased.handleMotion ev now s) /\
  ((SpanBased.stepTimestamps (SpanBased.handleMotion ev now s) =
      SpanBased.stepTimestamps s /\
    SpanBased.lastPeakTime (SpanBased.handleMotion ev now s) =
      SpanBased.lastPeakTime s) \/
   (SpanBased.stepTimestamps (SpanBased.handleMotion ev now s) =
      SpanBased.stepTimestamps s ++ [now] /\
    SpanBased.lastPeakTime (SpanBased.handleMotion ev now s) = now)).
Proof.
  intro Hsync. unfold SpanBased.handleMotion.
  destruct (accelerationIncludingGravity ev) as [a|];
    [|split; [exact Hsync|left; split; reflexivity]].
  cbv zeta. cbn [SpanBased.lastPeakTime SpanBased.lastFiltered
                 SpanBased.prevFiltered].
  match goal with |- context [if ?c then _ else _] =>
    destruct c eqn:Ec end;
    [|split; [exact Hsync|left; split; reflexivity]].
  apply Bool.andb_true_iff in Ec. destruct Ec as [_ Ec].
  apply Z.ltb_lt in Ec. unfold SpanBased.MIN_STEP_INTERVAL in Ec.
  rewrite span_onStep_accept
    by (cbn [SpanBased.lastStepTs]; rewrite Hsync; lia).
  split; [reflexivity|right; split; reflexivity].
Qed.

Lemma density_handleMotion_sync (ev : DeviceMotionEvent) (now : Z)
  (s : DensityBased.State) :
  DensityBased.lastStepTs s = DensityBased.lastPeakTime s ->
  DensityBased.lastStepTs (DensityBased.handleMotion ev now s) =
    DensityBased.lastPeakTime (DensityBased.handleMotion ev now s) /\
  ((DensityBased.stepTimestamps (DensityBased.handleMotion ev now s) =
      DensityBased.stepTimestamps s /\
    DensityBased.lastPeakTime (DensityBased.handleMotion ev now s) =
      DensityBased.lastPeakTime s) \/
   (DensityBased.stepTimestamps (DensityBased.handleMotion ev now s) =
      DensityBased.stepTimestamps s ++ [now] /\
    DensityBased.lastPeakTime (DensityBased.handleMotion ev now s) = now)).
Proof.
  intro Hsync. unfold DensityBased.handleMotion.
  destruct (accelerationIncludingGravity ev) as [a|];
    [|split; [exact Hsync|left; split; reflexivity]].
  cbv zeta. cbn [DensityBased.lastPeakTime DensityBased.lastFiltered].
  match goal with |- context [if ?c then _ else _] =>
    destruct c eqn:Ec end;
    [|split; [exact Hsync|left; split; reflexivity]].
  apply Bool.andb_true_iff in Ec. destruct Ec as [_ Ec].
  apply Z.ltb_lt in Ec. unfold DensityBased.MIN_STEP_INTERVAL in Ec.
  rewrite density_onStep_accept
    by (cbn [DensityBased.lastStepTs]; rewrite Hsync; lia).
  split; [reflexivity|right; split; reflexivity].
Qed.

Lemma span_run_sync (trace : list Callback) :
  no_injection trace ->
  forall s0 s,
    SpanBased.run trace s0 = Ok s ->
    SpanBased.lastStepTs s0 = SpanBased.lastPeakTime s0 ->
    SpanBased.lastStepTs s = SpanBased.lastPeakTime s.
Proof.
  induction 1 as [|c rest Hc Hrest IH]; intros s0 s Hrun H0;
    cbn [SpanBased.run] in Hrun.
  - inversion Hrun; subst; exact H0.
  - destruct (SpanBased.step c s0) as [s1|] eqn:Hs;
      cbn [bind] in Hrun; [|discriminate].
    apply (IH s1 s Hrun).
    destruct c as [ev now|now| |now]; cbn [SpanBased.step] in Hs.
    + inversion Hs; subst s1. apply span_handleMotion_sync, H0.
    + contradiction.
    + inversion Hs; subst s1. exact H0.
    + unfold SpanBased.tick in Hs.
      destruct (SpanBased.computeCadence now s0) as [[s2 r]|] eqn:Hcc;
        cbn [bind] in Hs; [|discriminate].
      inversion Hs; subst s1.
      apply span_computeCadence_state in Hcc. subst s2. exact H0.
Qed.

Lemma density_run_sync (trace : list Callback) :
  no_injection trace ->
  forall s0 s,
    DensityBased.run trace s0 = Ok s ->
    DensityBased.lastStepTs s0 = DensityBased.lastPeakTime s0 ->
    DensityBased.lastStepTs s = DensityBased.lastPeakTime s.
Proof.
  induction 1 as [|c rest Hc Hrest IH]; intros s0 s Hrun H0;
    cbn [DensityBased.run] in Hrun.
  - inversion Hrun; subst; exact H0.
  - destruct (DensityBased.step c s0) as [s1|] eqn:Hs;
      cbn [bind] in Hrun; [|discriminate].
    apply (IH s1 s Hrun).
    destruct c as [ev now|now| |now]; cbn [DensityBased.step] in Hs.
    + inversion Hs; subst s1. apply density_handleMotion_sync, H0.
    + contradiction.
    + inversion Hs; subst s1. exact H0.
    + unfold DensityBased.tick in Hs.
      destruct (DensityBased.computeCadence now s0) as [[s2 r]|] eqn:Hcc;
        cbn [bind] in Hs; [|discriminate].
      inversion Hs; subst s1.
      apply density_computeCadence_state in Hcc. subst s2. exact H0.
Qed.

(** X17. In a run where the simulate button is never pressed, in both
    revisions, [lastStepTs] and [lastPeakTime] are equal in the state
    reached, and the next motion sample either leaves the window and
    [lastPeakTime] as they are or sets [lastPeakTime] to its time and
    appends that time to the window: [onStep]'s own gate never rejects a
    peak the detector let through. *)
Theorem sensor_only_runs_record_every_peak (trace : list Callback)
  (ev : DeviceMotionEvent) (now : Z) :
  no_injection trace ->
  (exists s,
      SpanBased.run trace SpanBased.init = Ok s /\
      SpanBased.lastStepTs s = SpanBased.lastPeakTime s /\
      ((SpanBased.stepTimestamps (SpanBased.handleMotion ev now s) =
          SpanBased.stepTimestamps s /\
        SpanBased.lastPeakTime (SpanBased.handleMotion ev now s) =
          SpanBased.lastPeakTime s) \/
       (SpanBased.stepTimestamps (SpanBased.handleMotion ev now s) =
          SpanBased.stepTimestamps s ++ [now] /\
        SpanBased.lastPeakTime (SpanBased.handleMotion ev now s) = now))) /\
  (exists s,
      DensityBased.run trace DensityBased.init = Ok s /\
      DensityBased.lastStepTs s = DensityBased.lastPeakTime s /\
      ((DensityBased.stepTimestamps (DensityBased.handleMotion ev now s) =
          DensityBased.stepTimestamps s /\
        DensityBased.lastPeakTime (DensityBased.handleMotion ev now s) =
          DensityBased.lastPeakTime s) \/
       (DensityBased.stepTimestamps (DensityBased.handleMotion ev now s) =
          DensityBased.stepTimestamps s ++ [now] /\
        DensityBased.lastPeakTime (DensityBased.handleMotion ev now s) =
          now))).
Proof.
  intro Hno. split.
  - destruct (span_run_ok trace SpanBased.init) as [s [Hrun _]];
      [apply window_ok_empty|].
    pose proof (span_run_sync trace Hno _ _ Hrun eq_refl) as Hsync.
    exists s. split; [exact Hrun|]. split; [exact Hsync|].
    apply (span_handleMotion_sync ev now s Hsync).
  - destruct (density_run_ok trace DensityBased.init) as [s [Hrun _]];
      [apply window_ok_empty|].
    pose proof (density_run_sync trace Hno _ _ Hrun eq_refl) as Hsync.
    exists s. split; [exact Hrun|]. split; [exact Hsync|].
    apply (density_handleMotion_sync ev now s Hsync).
Qed.

Lemma sensor_only_runs_record_every_peak_witness :
  let peak := mkEv (Some (mkAcc (Some 0%float) (Some 9.8%float)
                            (Some 0%float))) in
  let rest := mkEv (Some (mkAcc (Some 0%float) (Some 0%float)
                            (Some 0%float))) in
  no_injection [Motion peak 1000; Motion rest 2000; Tick 2500] /\
  exists s,
    DensityBased.run [Motion peak 1000; Motion rest 2000; Tick 2500]
      DensityBased.init = Ok s /\
    DensityBased.lastStepTs s = DensityBased.lastPeakTime s.
Proof.
  cbv zeta. split; [repeat constructor|].
  destruct (sensor_only_runs_record_every_peak
              [Motion (mkEv (Some (mkAcc (Some 0%float) (Some 9.8%float)
                                     (Some 0%float)))) 1000;
               Motion (mkEv (Some (mkAcc (Some 0%float) (Some 0%float)
                                     (Some 0%float)))) 2000;
               Tick 2500]
              (mkEv None) 3000) as [_ [s [Hrun [Hsync _]]]];
    [repeat constructor|].
  exists s. split; assumption.
Defined.

(** ** Bands of the density-based revision by event count *)

(** X18. In the density-based revision the band a tick delivers depends
    only on how many events the window retains: fewer than two gives the
    first band, two to nine the middle band, ten or more the last. *)
Theorem density_band_by_event_count (now : Z) (s : DensityBased.State) :
  exists s',
    DensityBased.tick now s = Ok s' /\
    ((List.length (DensityBased.stepTimestamps s') <= 1)%nat ->
     DensityBased.stateEl s' = DensityBased.stationary) /\
    ((2 <= List.length (DensityBased.stepTimestamps s') <= 9)%nat ->
     DensityBased.stateEl s' = DensityBased.walking) /\
    ((10 <= List.length (DensityBased.stepTimestamps s'))%nat ->
     DensityBased.stateEl s' = DensityBased.fast).
Proof.
  destruct (density_computeCadence_total now s) as [s1 [r [Hc _]]].
  pose proof (density_rate_closed_form now s s1 r Hc) as Hr.
  exists (DensityBased.pushHistory r (DensityBased.updateUI (Some r) s1)).
  unfold DensityBased.tick. rewrite Hc. cbn [bind].
  split; [reflexivity|].
  cbn [DensityBased.pushHistory DensityBased.updateUI
       DensityBased.stepTimestamps DensityBased.stateEl].
  set (n := List.length (DensityBased.stepTimestamps s1)) in *.
  unfold DensityBased.classify.
  change DensityBased.THRESHOLD_STATIONARY with (inject_Z 20).
  change DensityBased.THRESHOLD_FAST with (inject_Z 110).
  split; [|split]; intro Hn.
  - assert (H : Qlt_bool r (inject_Z 20) = true)
      by (apply Qlt_bool_iff; rewrite Hr, <- Zlt_Qlt; lia).
    rewrite H. reflexivity.
  - assert (H1 : Qlt_bool r (inject_Z 20) = false)
      by (apply Qlt_bool_false_iff; rewrite Hr, <- Zle_Qle; lia).
    assert (H2 : Qle_bool (inject_Z 110) r = false)
      by (apply Qle_bool_false_iff; rewrite Hr, <- Zlt_Qlt; lia).
    rewrite H1, H2. reflexivity.
  - assert (H1 : Qlt_bool r (inject_Z 20) = false)
      by (apply Qlt_bool_false_iff; rewrite Hr, <- Zle_Qle; lia).
    assert (H2 : Qle_bool (inject_Z 110) r = true)
      by (apply Qle_bool_iff; rewrite Hr, <- Zle_Qle; lia).
    rewrite H1, H2. reflexivity.
Qed.

Lemma density_band_by_event_count_witness :
  exists s',
    DensityBased.tick 2000
      (fold_left (fun s t => DensityBased.simulateStep t s) [1000; 1500]
         DensityBased.init) = Ok s' /\
    DensityBased.stateEl s' = DensityBased.walking.
Proof.
  destruct (density_band_by_event_count 2000
              (fold_left (fun s t => DensityBased.simulateStep t s)
                 [1000; 1500] DensityBased.init))
    as [s' [Ht [_ [Hw _]]]].
  exists s'. split; [exact Ht|].
  apply Hw. vm_compute in Ht. inversion Ht; subst s'.
  cbn. lia.
Defined.

(** ** The rates on doubles *)

(** Reading one entry off an exhaustive check of counts 2 to 17 against
    every duration from [300 * (count - 1)] to 5000 ms. *)
Section Table.

Variable check : nat -> Z -> bool.
Hypothesis checked :
  forallb
    (fun c =>
       forallb (fun k => check c (300 * (Z.of_nat c - 1) + Z.of_nat k))
         (seq 0 (Z.to_nat (5001 - 300 * (Z.of_nat c - 1)))))
    (seq 2 16) = true.

Lemma table_lookup (c : nat) (d : Z) :
  (2 <= c <= 17)%nat ->
  300 * (Z.of_nat c - 1) <= d <= 5000 ->
  check c d = true.
Proof.
  intros Hc Hd. pose proof checked as T.
  rewrite forallb_forall in T.
  specialize (T c ltac:(apply in_seq; lia)). rewrite forallb_forall in T.
  specialize (T (Z.to_nat (d - 300 * (Z.of_nat c - 1)))
                ltac:(apply in_seq; lia)).
  rewrite Z2Nat.id in T by lia.
  replace (300 * (Z.of_nat c - 1) + (d - 300 * (Z.of_nat c - 1))) with d
    in T by lia.
  exact T.
Qed.

End Table.

Lemma span_table_checked :
  forallb
    (fun c =>
       forallb
         (fun k =>
            Binary64.span_check c (300 * (Z.of_nat c - 1) + Z.of_nat k))
         (seq 0 (Z.to_nat (5001 - 300 * (Z.of_nat c - 1)))))
    (seq 2 16) = true.
Proof. vm_compute. reflexivity. Qed.

Lemma span_of_bounded (c : nat) (d : Z) :
  (2 <= c <= 17)%nat ->
  300 * (Z.of_nat c - 1) <= d <= 5000 ->
  (0 <=? Binary64.span_of c d)%float = true /\
  (Binary64.span_of c d <=? 200)%float = true.
Proof.
  intros Hc Hd.
  pose proof (table_lookup Binary64.span_check span_table_checked c d Hc Hd)
    as T.
  unfold Binary64.span_check in T.
  apply Bool.andb_true_iff in T. exact T.
Qed.

Lemma span_rate_bounded (kept : list Z) (lo : Z) :
  spaced 300 kept ->
  Forall (fun t => lo <= t <= lo + 5000) kept ->
  (0 <=? Binary64.span_rate kept)%float = true /\
  (Binary64.span_rate kept <=? 200)%float = true.
Proof.
  intros Hs Hin. unfold Binary64.span_rate. cbv zeta.
  destruct (List.length kept =? 0)%nat eqn:E0; [split; reflexivity|].
  apply Nat.eqb_neq in E0.
  destruct (2 <=? List.length kept)%nat eqn:E2.
  - apply Nat.leb_le in E2.
    pose proof (spaced_total_span 300 kept ltac:(lia) Hs) as Hspan.
    rewrite Forall_forall in Hin.
    assert (H0 : lo <= nth 0 kept 0) by (apply Hin, nth_In; lia).
    assert (H1 : nth (List.length kept - 1) kept 0 <= lo + 5000)
      by (apply Hin, nth_In; lia).
    apply span_of_bounded; lia.
  - apply Nat.leb_gt in E2.
    replace (List.length kept) with 1%nat by lia. split; reflexivity.
Qed.

Lemma density_rate_exact (n : nat) :
  (n <= 40)%nat ->
  Binary64.density_rate n = Binary64.of_Z (12 * Z.of_nat n).
Proof.
  intro H.
  do 41 (destruct n as [|n]; [vm_compute; reflexivity|]).
  lia.
Qed.

Lemma span_kept_in_window (trace : list Callback) (now : Z)
  (s : SpanBased.State) :
  monotonic_clock (trace ++ [Tick now]) ->
  SpanBased.run trace SpanBased.init = Ok s ->
  SpanBased.window_invariant s ->
  spaced 300
    (filter (fun ts => now - 5 * 1000 <=? ts) (SpanBased.stepTimestamps s)) /\
  Forall (fun t => now - 5000 <= t <= now - 5000 + 5000)
    (filter (fun ts => now - 5 * 1000 <=? ts) (SpanBased.stepTimestamps s)).
Proof.
  intros Hclock Hrun Hinv. split.
  - apply spaced_filter; [discriminate|apply Hinv].
  - apply Forall_forall. intros t Ht. apply filter_In in Ht.
    destruct Ht as [Ht Hlo]. apply Z.leb_le in Hlo.
    destruct (span_run_provenance trace _ _ Hrun) as [Hp _].
    destruct (Hp t Ht) as [[]|Hr].
    pose proof (readings_before_tick trace now t Hclock Hr). lia.
Qed.

(** X19. Under a non-decreasing clock, in the density-based revision, the
    double the script computes as [(count / 5) * 60] at a compute after any
    run from the initial state is exactly 12 times the number of retained
    events, the same number as the exact rate: the two agree for every
    count up to 40, and at most 21 events can be retained.  At 41 events
    the double is no longer 492. *)
Theorem density_rate_on_doubles_is_exact (trace : list Callback) (now : Z) :
  monotonic_clock (trace ++ [Tick now]) ->
  (exists s s' r,
      DensityBased.run trace DensityBased.init = Ok s /\
      DensityBased.computeCadence now s = Ok (s', r) /\
      (r == inject_Z
              (12 * Z.of_nat
                      (List.length (DensityBased.stepTimestamps s'))))%Q /\
      Binary64.density_rate (List.length (DensityBased.stepTimestamps s')) =
        Binary64.of_Z
          (12 * Z.of_nat (List.length (DensityBased.stepTimestamps s')))) /\
  (forall n, (n <= 40)%nat ->
             Binary64.density_rate n = Binary64.of_Z (12 * Z.of_nat n)) /\
  PrimFloat.eqb (Binary64.density_rate 41) (Binary64.of_Z 492) = false.
Proof.
  intro Hclock. split; [|split; [exact density_rate_exact|reflexivity]].
  destruct (density_run_ok trace DensityBased.init) as [s [Hrun Hinv]];
    [apply window_ok_empty|].
  destruct (density_computeCadence_total now s) as [s' [r [Hc [Hk _]]]].
  pose proof (density_kept_count trace now s Hclock Hrun Hinv) as Hn.
  exists s, s', r. split; [exact Hrun|]. split; [exact Hc|].
  split; [exact (density_rate_closed_form now s s' r Hc)|].
  apply density_rate_exact. rewrite Hk. lia.
Qed.

Lemma density_rate_on_doubles_is_exact_witness :
  monotonic_clock
    ([SimulateStep 1000; SimulateStep 1300; Tick 1500; SimulateStep 2000]
     ++ [Tick 2500]) /\
  Binary64.density_rate 3 = 36%float.
Proof.
  split; [cbn; lia|].
  destruct (density_rate_on_doubles_is_exact
              [SimulateStep 1000; SimulateStep 1300; Tick 1500;
               SimulateStep 2000] 2500) as [_ [H _]]; [cbn; lia|].
  rewrite (H 3%nat) by lia. reflexivity.
Defined.

(** X20. Under a non-decreasing clock, in the span-based revision, the
    double the script computes from the window a compute retains, after
    any run from the initial state, is at least 0 and at most 200: every
    count from 2 to 17 with every whole number of milliseconds the
    refractory interval and the five-second window allow between the first
    and the last event is evaluated. *)
Theorem span_rate_on_doubles_at_most_200 (trace : list Callback) (now : Z) :
  monotonic_clock (trace ++ [Tick now]) ->
  exists s s' r,
    SpanBased.run trace SpanBased.init = Ok s /\
    SpanBased.computeCadence now s = Ok (s', r) /\
    (0 <=? Binary64.span_rate (SpanBased.stepTimestamps s'))%float = true /\
    (Binary64.span_rate (SpanBased.stepTimestamps s') <=? 200)%float = true.
Proof.
  intro Hclock.
  destruct (span_run_ok trace SpanBased.init) as [s [Hrun Hinv]];
    [apply window_ok_empty|].
  destruct (span_computeCadence_total now s) as [s' [r [Hc [Hk _]]]].
  destruct (span_kept_in_window trace now s Hclock Hrun Hinv) as [Hs Hin].
  exists s, s', r. split; [exact Hrun|]. split; [exact Hc|].
  rewrite Hk. exact (span_rate_bounded _ (now - 5000) Hs Hin).
Qed.

Lemma span_rate_on_doubles_at_most_200_witness :
  monotonic_clock
    ([SimulateStep 1000; SimulateStep 1300; Tick 1500; SimulateStep 2000]
     ++ [Tick 2500]) /\
  exists s s' r,
    SpanBased.run
      [SimulateStep 1000; SimulateStep 1300; Tick 1500; SimulateStep 2000]
      SpanBased.init = Ok s /\
    SpanBased.computeCadence 2500 s = Ok (s', r) /\
    (Binary64.span_rate (SpanBased.stepTimestamps s') <=? 200)%float = true.
Proof.
  split; [cbn; lia|].
  destruct (span_rate_on_doubles_at_most_200
              [SimulateStep 1000; SimulateStep 1300; Tick 1500;
               SimulateStep 2000] 2500)
    as [s [s' [r [Hrun [Hc [_ Hle]]]]]]; [cbn; lia|].
  exists s, s', r. repeat split; assumption.
Defined.
